(** * RocksDBMethods: the transactional key-value access layer

    A shallow embedding of [arangod/RocksDBEngine/RocksDBMethods.cpp]:
    the [RocksDBSavePoint] guard and the four [RocksDBMethods]
    strategies (read-only, transactional, untracked, batched).

    The storage engine, the native transaction object, the indexed
    write batch and the transaction state are collaborators of that
    file.  They are modelled by the history of calls issued to them
    and by an environment that fixes what each call answers, given
    the calls that came before it. *)

From Stdlib Require Import List String Bool Arith ZArith Lia.
Import ListNotations.
Local Open Scope string_scope.
Local Open Scope list_scope.

(* ================================================================== *)
(** ** Data model *)
(* ================================================================== *)

(** [rocksdb::Status]: the status code carried by an engine answer. *)
Inductive Status : Type :=
| kOk | kNotFound | kCorruption | kNotSupported | kInvalidArgument
| kIOError | kMergeInProgress | kIncomplete | kShutdownInProgress
| kTimedOut | kAborted | kBusy | kExpired | kTryAgain.

Definition ok (s : Status) : bool :=
  match s with kOk => true | _ => false end.

Definition IsNotFound (s : Status) : bool :=
  match s with kNotFound => true | _ => false end.

(** [rocksutils::StatusHint]. *)
Inductive StatusHint : Type :=
| hint_none | hint_document | hint_collection | hint_view
| hint_index | hint_database | hint_wal.

(** ArangoDB error numbers, as far as this file names them. *)
Inductive ErrorCode : Type :=
| TRI_ERROR_NO_ERROR
| TRI_ERROR_ARANGO_READ_ONLY
| TRI_ERROR_OTHER (n : nat).

(** [arangodb::Result]. *)
Record Result : Type := mkResult {
  errorNumber : ErrorCode;
  errorMessage : string
}.

(** [arangodb::Result()], the success result. *)
Definition Result_ok : Result :=
  {| errorNumber := TRI_ERROR_NO_ERROR; errorMessage := "" |}.

Definition Result_is_ok (r : Result) : bool :=
  match errorNumber r with TRI_ERROR_NO_ERROR => true | _ => false end.

(** A [rocksdb::ColumnFamilyHandle*] is a nullable pointer; the handle
    itself is identified by a number. *)
Definition ColumnFamilyHandle : Type := nat.
Definition cf_ptr : Type := option ColumnFamilyHandle.

Definition Slice : Type := string.

(** [RocksDBKey]; [key_string] is its [string()] accessor. *)
Record RocksDBKey : Type := mkKey { key_string : string }.

(** A [rocksdb::Snapshot const*] is a nullable pointer. *)
Definition Snapshot : Type := nat.

(** [rocksdb::ReadOptions], with the fields ArangoDB sets. *)
Record ReadOptions : Type := mkReadOptions {
  snapshot : option Snapshot;
  verify_checksums : bool;
  fill_cache : bool;
  prefix_same_as_start : bool;
  total_order_seek : bool
}.

(** The default-constructed [rocksdb::ReadOptions ro;]. *)
Definition ReadOptions_default : ReadOptions :=
  {| snapshot := None;
     verify_checksums := true;
     fill_cache := true;
     prefix_same_as_start := false;
     total_order_seek := false |}.

(** [ro.snapshot = s;] on a copy of [ro]. *)
Definition set_snapshot (s : option Snapshot) (ro : ReadOptions) : ReadOptions :=
  {| snapshot := s;
     verify_checksums := verify_checksums ro;
     fill_cache := fill_cache ro;
     prefix_same_as_start := prefix_same_as_start ro;
     total_order_seek := total_order_seek ro |}.

(** [TRI_voc_document_operation_e]. *)
Inductive TRI_voc_document_operation_e : Type :=
| TRI_VOC_DOCUMENT_OPERATION_UNKNOWN
| TRI_VOC_DOCUMENT_OPERATION_INSERT
| TRI_VOC_DOCUMENT_OPERATION_UPDATE
| TRI_VOC_DOCUMENT_OPERATION_REPLACE
| TRI_VOC_DOCUMENT_OPERATION_REMOVE.

(** [transaction::Hints::Hint]. *)
Inductive Hint : Type :=
| SINGLE_OPERATION | LOCK_ENTIRELY | LOCK_NEVER | NO_BEGIN_MARKER
| NO_ABORT_MARKER | NO_THROTTLING | TRY_LOCK | NO_COMPACT
| NO_USAGE_LOCK | RECOVERY | NO_DLD | NO_INDEXING
| INTERMEDIATE_COMMITS | ALLOW_RANGE_DELETE.

(** The part of [RocksDBTransactionState] this file reads. *)
Record RocksDBTransactionState : Type := mkState {
  _rocksReadOptions : ReadOptions;
  _readSnapshot : option Snapshot;
  hasHint : Hint -> bool
}.

(** The part of [transaction::Methods] the guard reads. *)
Record TransactionMethods : Type := mkTrx {
  isSingleOperationTransaction : bool
}.

(** What a C++ function can raise: an [arangodb::basics::Exception]
    carrying an error number and its message, another
    [std::exception], or a value that is not a [std::exception]. *)
Inductive Exception : Type :=
| ArangoException (code : ErrorCode) (message : string)
| StdException (message : string)
| ForeignException.

(** [ex.what()] for the exceptions [catch (std::exception const& ex)]
    matches; [None] for those only [catch (...)] matches. *)
Definition what (e : Exception) : option string :=
  match e with
  | ArangoException _ m => Some m
  | StdException m => Some m
  | ForeignException => None
  end.

(* ================================================================== *)
(** ** Collaborators and their call history *)
(* ================================================================== *)

(** One entry of the history: a call this file issues to a
    collaborator. *)
Inductive Event : Type :=
(* virtual calls on the RocksDBMethods* of RocksDBTransactionState::toMethods(_trx) *)
| Methods_SetSavePoint
| Methods_RollbackToSavePoint
| Methods_PopSavePoint
(* RocksDBTransactionState::toState(_trx)->rollbackOperation(op) *)
| State_rollbackOperation (op : TRI_voc_document_operation_e)
(* _state->_rocksTransaction, the native transaction object *)
| Trx_DisableIndexing
| Trx_EnableIndexing
| Trx_Get (ro : ReadOptions) (cf : cf_ptr) (key : Slice)
| Trx_Put (cf : cf_ptr) (key : Slice) (val : Slice)
| Trx_Delete (cf : cf_ptr) (key : Slice)
| Trx_SingleDelete (cf : cf_ptr) (key : Slice)
| Trx_PutUntracked (cf : cf_ptr) (key : Slice) (val : Slice)
| Trx_DeleteUntracked (cf : cf_ptr) (key : Slice)
| Trx_SingleDeleteUntracked (cf : cf_ptr) (key : Slice)
| Trx_SetSavePoint
| Trx_RollbackToSavePoint
| Trx_PopSavePoint
(* _db, the global storage engine handle *)
| Db_KeyMayExist (ro : ReadOptions) (cf : cf_ptr) (key : Slice)
| Db_Get (ro : ReadOptions) (cf : cf_ptr) (key : Slice)
(* _wb, the indexed write batch *)
| Wb_GetFromBatchAndDB (ro : ReadOptions) (cf : cf_ptr) (key : Slice)
| Wb_Put (cf : cf_ptr) (key : Slice) (val : Slice)
| Wb_Delete (cf : cf_ptr) (key : Slice)
| Wb_SingleDelete (cf : cf_ptr) (key : Slice)
(* see [intermediateCommit] below *)
| State_intermediateCommit.

(** The world the code runs in: the calls issued so far, oldest
    first, and the lines written to the error log. *)
Record World : Type := mkWorld {
  calls : list Event;
  errlog : list string
}.

Definition empty_world : World := {| calls := []; errlog := [] |}.

(** The build and the collaborators.  [TRI_ASSERT], [convertStatus]
    and the collaborators' code are not part of the file; they are
    taken as parameters.  Each answer may depend on the whole history
    of earlier calls, so any deterministic collaborator is covered. *)
Class Environment : Type := {
  (** Whether the build defines [ARANGODB_ENABLE_MAINTAINER_MODE], in
      which [TRI_ASSERT] aborts on a false condition; otherwise it
      expands to nothing. *)
  ARANGODB_ENABLE_MAINTAINER_MODE : bool;
  (** The [rocksdb::Status] answered by an engine call. *)
  status_of : list Event -> Event -> Status;
  (** The value an engine read stores in its output buffer. *)
  value_of : list Event -> Event -> string;
  (** [KeyMayExist]: its return value and its [value_found] output. *)
  keyMayExist_of : list Event -> Event -> bool * bool;
  (** Whether a rollback step raises, and what. *)
  raises : list Event -> Event -> option Exception;
  (** [rocksutils::convertStatus(status, hint, key, context)]. *)
  convertStatus : Status -> StatusHint -> string -> string -> Result;
  (** [TRI_errno_string(code)], the message of an error number. *)
  TRI_errno_string : ErrorCode -> string
}.

(* ================================================================== *)
(** ** The monad of the embedding: state, exceptions, abort *)
(* ================================================================== *)

Inductive Outcome (A : Type) : Type :=
| Returned (a : A)          (* normal return *)
| Thrown (e : Exception)    (* a C++ exception propagates *)
| Aborted.                  (* a failed assertion ended the process *)

Arguments Returned {A} a.
Arguments Thrown {A} e.
Arguments Aborted {A}.

Definition M (A : Type) : Type := World -> Outcome A * World.

Definition ret {A : Type} (a : A) : M A := fun w => (Returned a, w).

Definition bind {A B : Type} (m : M A) (k : A -> M B) : M B :=
  fun w =>
    match m w with
    | (Returned a, w') => k a w'
    | (Thrown e, w') => (Thrown e, w')
    | (Aborted, w') => (Aborted, w')
    end.

Declare Scope cpp_scope.
Delimit Scope cpp_scope with cpp.
Notation "x <- m ;; k" := (bind m (fun x => k))
  (at level 61, m at next level, right associativity) : cpp_scope.
Notation "m ;; k" := (bind m (fun _ => k))
  (at level 61, right associativity) : cpp_scope.
Local Open Scope cpp_scope.

(** [throw e;] *)
Definition throw {A : Type} (e : Exception) : M A := fun w => (Thrown e, w).

(** [try { m } catch (...) { h }]: an abort is not an exception and
    is not caught. *)
Definition try_catch {A : Type} (m : M A) (h : Exception -> M A) : M A :=
  fun w =>
    match m w with
    | (Thrown e, w') => h e w'
    | r => r
    end.

(** Record a call in the history. *)
Definition record_call (c : Event) (w : World) : World :=
  {| calls := calls w ++ [c]; errlog := errlog w |}.

(** [LOG_TOPIC(ERR, ...) << msg]. *)
Definition LOG_TOPIC_ERR (msg : string) : M unit :=
  fun w => (Returned tt, {| calls := calls w; errlog := errlog w ++ [msg] |}).

Section Primitives.
Context {E : Environment}.

(** [TRI_ASSERT(cond)]. *)
Definition TRI_ASSERT (cond : bool) : M unit :=
  fun w =>
    if ARANGODB_ENABLE_MAINTAINER_MODE && negb cond
    then (Aborted, w)
    else (Returned tt, w).

(** [THROW_ARANGO_EXCEPTION(code)]. *)
Definition THROW_ARANGO_EXCEPTION {A : Type} (code : ErrorCode) : M A :=
  throw (ArangoException code (TRI_errno_string code)).

(** A forwarding call whose answer this file does not look at. *)
Definition issue (c : Event) : M unit :=
  fun w => (Returned tt, record_call c w).

(** An engine call answering a [rocksdb::Status]. *)
Definition engine (c : Event) : M Status :=
  fun w => (Returned (status_of (calls w) c), record_call c w).

(** An engine read: its status and what it stored in the output. *)
Definition engine_read (c : Event) : M (Status * string) :=
  fun w => (Returned (status_of (calls w) c, value_of (calls w) c),
            record_call c w).

(** [_db->KeyMayExist(...)]. *)
Definition engine_probe (c : Event) : M (bool * bool) :=
  fun w => (Returned (keyMayExist_of (calls w) c), record_call c w).

(** A call inside [rollback()], which the destructor expects to be
    able to raise. *)
Definition invoke (c : Event) : M unit :=
  fun w =>
    match raises (calls w) c with
    | Some e => (Thrown e, record_call c w)
    | None => (Returned tt, record_call c w)
    end.

End Primitives.

(** Modelled from the spec: the intermediate commit of the enclosing
    transaction, which [RocksDBTransactionState] performs and this
    file does not contain.  It enters the history so that statements
    can speak of what the guard does after one. *)
Definition intermediateCommit : M unit :=
  fun w => (Returned tt, record_call State_intermediateCommit w).

(* ================================================================== *)
(** ** RocksDBSavePoint *)
(* ================================================================== *)

Module RocksDBSavePoint.
Section WithEnvironment.
Context {E : Environment}.

Record t : Type := mk {
  _trx : TransactionMethods;
  _operationType : TRI_voc_document_operation_e;
  _handled : bool
}.

Definition set_handled (b : bool) (g : t) : t :=
  {| _trx := _trx g; _operationType := _operationType g; _handled := b |}.

(** The constructor.  [_trx] is dereferenced by the member
    initialiser before [TRI_ASSERT(trx != nullptr)] is reached, so
    the transaction is a value here and the assertion holds. *)
Definition ctor (trx : TransactionMethods)
    (operationType : TRI_voc_document_operation_e) : M t :=
  let g := {| _trx := trx;
              _operationType := operationType;
              _handled := isSingleOperationTransaction trx |} in
  TRI_ASSERT true ;;
  (if negb (_handled g)
   then issue Methods_SetSavePoint   (* only create a savepoint when necessary *)
   else ret tt) ;;
  ret g.

Definition finish (g : t) (hasPerformedIntermediateCommit : bool) : M t :=
  (if negb (_handled g) && negb hasPerformedIntermediateCommit
   then issue Methods_PopSavePoint
   else ret tt) ;;
  (* this will prevent the rollback call in the destructor *)
  ret (set_handled true g).

Definition rollback (g : t) : M t :=
  TRI_ASSERT (negb (_handled g)) ;;
  invoke Methods_RollbackToSavePoint ;;
  invoke (State_rollbackOperation (_operationType g)) ;;
  ret (set_handled true g).   (* in order to not roll back again by accident *)

(** The destructor; the result is the guard as its body leaves it. *)
Definition dtor (g : t) : M t :=
  if negb (_handled g) then
    try_catch (rollback g)
      (fun ex =>
         match what ex with
         | Some msg =>
             LOG_TOPIC_ERR ("caught exception during rollback to savepoint: " ++ msg) ;;
             ret g
         | None => ret g
         end)
  else ret g.

End WithEnvironment.
End RocksDBSavePoint.

(* ================================================================== *)
(** ** RocksDBMethods: the shared contract *)
(* ================================================================== *)

(** The virtual interface of [RocksDBMethods]; [Get] stands for both
    overloads, which differ in the kind of output buffer only, and
    returns what was stored in it next to the [Result]. *)
Class RocksDBMethods (T : Type) : Type := {
  Exists : T -> cf_ptr -> RocksDBKey -> M bool;
  Get : T -> cf_ptr -> Slice -> M (Result * option string);
  Put : T -> cf_ptr -> RocksDBKey -> Slice -> StatusHint -> M Result;
  Delete : T -> cf_ptr -> RocksDBKey -> M Result;
  SingleDelete : T -> cf_ptr -> RocksDBKey -> M Result
}.

(** [RocksDBMethods::Get(cf, RocksDBKey const&, val)]. *)
Definition Get_key {T : Type} `{RocksDBMethods T}
    (m : T) (cf : cf_ptr) (key : RocksDBKey) : M (Result * option string) :=
  Get m cf (key_string key).

Definition is_null (cf : cf_ptr) : bool :=
  match cf with None => true | Some _ => false end.

Definition is_nullptr (s : option Snapshot) : bool :=
  match s with None => true | Some _ => false end.

Section SharedHelpers.
Context {E : Environment}.

(** [RocksDBMethods::iteratorReadOptions()], over the [_state] the
    strategy is bound to. *)
Definition iteratorReadOptions (_state : RocksDBTransactionState) : M ReadOptions :=
  if hasHint _state INTERMEDIATE_COMMITS then
    let ro := _rocksReadOptions _state in
    TRI_ASSERT (negb (is_nullptr (_readSnapshot _state))) ;;
    ret (set_snapshot (_readSnapshot _state) ro)
  else ret (_rocksReadOptions _state).

(** [s.ok() ? arangodb::Result() : convertStatus(s, hint, key, context)]. *)
Definition to_Result (s : Status) (hint : StatusHint) (key context : string) : Result :=
  if ok s then Result_ok else convertStatus s hint key context.

End SharedHelpers.

(* ================================================================== *)
(** ** RocksDBReadOnlyMethods *)
(* ================================================================== *)

Module RocksDBReadOnlyMethods.
Section WithEnvironment.
Context {E : Environment}.

(** [_db] is the global engine handle; its calls are [Db_] events. *)
Record t : Type := mk { _state : RocksDBTransactionState }.

Definition Exists (m : t) (cf : cf_ptr) (key : RocksDBKey) : M bool :=
  TRI_ASSERT (negb (is_null cf)) ;;
  probe <- engine_probe
             (Db_KeyMayExist (_rocksReadOptions (_state m)) cf (key_string key)) ;;
  let (mayExist, valueFound) := probe : bool * bool in
  if valueFound then ret true
  else if mayExist then
    s <- engine (Db_Get (_rocksReadOptions (_state m)) cf (key_string key)) ;;
    ret (negb (IsNotFound s))
  else ret false.

Definition Get (m : t) (cf : cf_ptr) (key : Slice) : M (Result * option string) :=
  TRI_ASSERT (negb (is_null cf)) ;;
  let ro := _rocksReadOptions (_state m) in
  TRI_ASSERT (negb (is_nullptr (snapshot ro))) ;;
  sv <- engine_read (Db_Get ro cf key) ;;
  let (s, v) := sv : Status * string in
  ret (to_Result s hint_document "" "Get - in RocksDBReadOnlyMethods",
       if ok s then Some v else None).

Definition Put (m : t) (cf : cf_ptr) (key : RocksDBKey) (val : Slice)
    (hint : StatusHint) : M Result :=
  THROW_ARANGO_EXCEPTION TRI_ERROR_ARANGO_READ_ONLY.

Definition Delete (m : t) (cf : cf_ptr) (key : RocksDBKey) : M Result :=
  THROW_ARANGO_EXCEPTION TRI_ERROR_ARANGO_READ_ONLY.

Definition SingleDelete (m : t) (cf : cf_ptr) (key : RocksDBKey) : M Result :=
  THROW_ARANGO_EXCEPTION TRI_ERROR_ARANGO_READ_ONLY.

#[export] Instance methods : RocksDBMethods t :=
  Build_RocksDBMethods t
    Exists
    Get
    Put Delete SingleDelete.

End WithEnvironment.
End RocksDBReadOnlyMethods.

(* ================================================================== *)
(** ** RocksDBTrxMethods *)
(* ================================================================== *)

Module RocksDBTrxMethods.
Section WithEnvironment.
Context {E : Environment}.

(** [_state->_rocksTransaction] is the native transaction object; its
    calls are [Trx_] events. *)
Record t : Type := mk {
  _state : RocksDBTransactionState;
  _indexingDisabled : bool
}.

Definition set_indexingDisabled (b : bool) (m : t) : t :=
  {| _state := _state m; _indexingDisabled := b |}.

(** The constructor. *)
Definition ctor (state : RocksDBTransactionState) : t :=
  {| _state := state; _indexingDisabled := false |}.

(** Returns its [bool] and the object as the call leaves it. *)
Definition DisableIndexing (m : t) : M (bool * t) :=
  if negb (_indexingDisabled m) then
    issue Trx_DisableIndexing ;;
    ret (true, set_indexingDisabled true m)
  else ret (false, m).

Definition EnableIndexing (m : t) : M t :=
  if _indexingDisabled m then
    issue Trx_EnableIndexing ;;
    ret (set_indexingDisabled false m)
  else ret m.

Definition Exists (m : t) (cf : cf_ptr) (key : RocksDBKey) : M bool :=
  TRI_ASSERT (negb (is_null cf)) ;;
  s <- engine (Trx_Get (_rocksReadOptions (_state m)) cf (key_string key)) ;;
  ret (negb (IsNotFound s)).

Definition Get (m : t) (cf : cf_ptr) (key : Slice) : M (Result * option string) :=
  let rv := Result_ok in
  TRI_ASSERT (negb (is_null cf)) ;;
  let ro := _rocksReadOptions (_state m) in
  TRI_ASSERT (negb (is_nullptr (snapshot ro))) ;;
  sv <- engine_read (Trx_Get ro cf key) ;;
  let (s, v) := sv : Status * string in
  ret (if negb (ok s)
       then convertStatus s hint_document "" "Get - in RocksDBTrxMethods"
       else rv,
       if ok s then Some v else None).

Definition Put (m : t) (cf : cf_ptr) (key : RocksDBKey) (val : Slice)
    (hint : StatusHint) : M Result :=
  TRI_ASSERT (negb (is_null cf)) ;;
  s <- engine (Trx_Put cf (key_string key) val) ;;
  ret (to_Result s hint "" "").

Definition Delete (m : t) (cf : cf_ptr) (key : RocksDBKey) : M Result :=
  TRI_ASSERT (negb (is_null cf)) ;;
  s <- engine (Trx_Delete cf (key_string key)) ;;
  ret (to_Result s hint_none "" "").

Definition SingleDelete (m : t) (cf : cf_ptr) (key : RocksDBKey) : M Result :=
  TRI_ASSERT (negb (is_null cf)) ;;
  s <- engine (Trx_SingleDelete cf (key_string key)) ;;
  ret (to_Result s hint_none "" "").

Definition SetSavePoint (m : t) : M unit :=
  issue Trx_SetSavePoint.

Definition RollbackToSavePoint (m : t) : M Result :=
  s <- engine Trx_RollbackToSavePoint ;;
  ret (convertStatus s hint_none "" "").

Definition PopSavePoint (m : t) : M unit :=
  if ARANGODB_ENABLE_MAINTAINER_MODE then
    s <- engine Trx_PopSavePoint ;;
    TRI_ASSERT (ok s)
  else
    issue Trx_PopSavePoint.

#[export] Instance methods : RocksDBMethods t :=
  Build_RocksDBMethods t
    Exists
    Get
    Put Delete SingleDelete.

End WithEnvironment.
End RocksDBTrxMethods.

(* ================================================================== *)
(** ** RocksDBTrxUntrackedMethods *)
(* ================================================================== *)

Module RocksDBTrxUntrackedMethods.
Section WithEnvironment.
Context {E : Environment}.

(** A [RocksDBTrxMethods] that overrides the three writes. *)
Record t : Type := mk { base : RocksDBTrxMethods.t }.

Definition ctor (state : RocksDBTransactionState) : t :=
  {| base := RocksDBTrxMethods.ctor state |}.

Definition Put (m : t) (cf : cf_ptr) (key : RocksDBKey) (val : Slice)
    (hint : StatusHint) : M Result :=
  TRI_ASSERT (negb (is_null cf)) ;;
  s <- engine (Trx_PutUntracked cf (key_string key) val) ;;
  ret (to_Result s hint "" "").

Definition Delete (m : t) (cf : cf_ptr) (key : RocksDBKey) : M Result :=
  TRI_ASSERT (negb (is_null cf)) ;;
  s <- engine (Trx_DeleteUntracked cf (key_string key)) ;;
  ret (to_Result s hint_none "" "").

Definition SingleDelete (m : t) (cf : cf_ptr) (key : RocksDBKey) : M Result :=
  TRI_ASSERT (negb (is_null cf)) ;;
  s <- engine (Trx_SingleDeleteUntracked cf (key_string key)) ;;
  ret (to_Result s hint_none "" "").

#[export] Instance methods : RocksDBMethods t :=
  Build_RocksDBMethods t
    (fun m => RocksDBTrxMethods.Exists (base m))
    (fun m => RocksDBTrxMethods.Get (base m))
    Put Delete SingleDelete.

End WithEnvironment.
End RocksDBTrxUntrackedMethods.

(* ================================================================== *)
(** ** RocksDBBatchedMethods *)
(* ================================================================== *)

Module RocksDBBatchedMethods.
Section WithEnvironment.
Context {E : Environment}.

(** [_wb] is the caller's indexed write batch, [_db] the global
    engine handle; the calls on the batch are [Wb_] events. *)
Record t : Type := mk { _state : RocksDBTransactionState }.

Definition Exists (m : t) (cf : cf_ptr) (key : RocksDBKey) : M bool :=
  TRI_ASSERT (negb (is_null cf)) ;;
  let ro := ReadOptions_default in
  s <- engine (Wb_GetFromBatchAndDB ro cf (key_string key)) ;;
  ret (negb (IsNotFound s)).

Definition Get (m : t) (cf : cf_ptr) (key : Slice) : M (Result * option string) :=
  TRI_ASSERT (negb (is_null cf)) ;;
  let ro := ReadOptions_default in
  sv <- engine_read (Wb_GetFromBatchAndDB ro cf key) ;;
  let (s, v) := sv : Status * string in
  ret (to_Result s hint_document "" "Get - in RocksDBBatchedMethods",
       if ok s then Some v else None).

Definition Put (m : t) (cf : cf_ptr) (key : RocksDBKey) (val : Slice)
    (hint : StatusHint) : M Result :=
  TRI_ASSERT (negb (is_null cf)) ;;
  _ <- engine (Wb_Put cf (key_string key) val) ;;
  ret Result_ok.

Definition Delete (m : t) (cf : cf_ptr) (key : RocksDBKey) : M Result :=
  TRI_ASSERT (negb (is_null cf)) ;;
  _ <- engine (Wb_Delete cf (key_string key)) ;;
  ret Result_ok.

Definition SingleDelete (m : t) (cf : cf_ptr) (key : RocksDBKey) : M Result :=
  TRI_ASSERT (negb (is_null cf)) ;;
  _ <- engine (Wb_SingleDelete cf (key_string key)) ;;
  ret Result_ok.

#[export] Instance methods : RocksDBMethods t :=
  Build_RocksDBMethods t
    Exists
    Get
    Put Delete SingleDelete.

End WithEnvironment.
End RocksDBBatchedMethods.

(* ================================================================== *)
(** ** Observations on histories, scenarios, sample environments *)
(* ================================================================== *)

Definition is_SetSavePoint (e : Event) : bool :=
  match e with Methods_SetSavePoint => true | _ => false end.

Definition is_PopSavePoint (e : Event) : bool :=
  match e with Methods_PopSavePoint => true | _ => false end.

Definition is_RollbackToSavePoint (e : Event) : bool :=
  match e with Methods_RollbackToSavePoint => true | _ => false end.

Definition is_rollbackOperation (e : Event) : bool :=
  match e with State_rollbackOperation _ => true | _ => false end.

Definition is_intermediateCommit (e : Event) : bool :=
  match e with State_intermediateCommit => true | _ => false end.

(** The calls that pop or roll back the savepoint. *)
Definition touches_savepoint (e : Event) : bool :=
  is_PopSavePoint e || is_RollbackToSavePoint e.

(** How many calls of a kind a history holds. *)
Definition count (p : Event -> bool) (h : list Event) : nat :=
  List.length (filter p h).

(** What follows the first intermediate commit of a history. *)
Fixpoint after_intermediateCommit (h : list Event) : list Event :=
  match h with
  | [] => []
  | e :: h' => if is_intermediateCommit e then h' else after_intermediateCommit h'
  end.

(** Whether the savepoint was popped or rolled back after an
    intermediate commit. *)
Definition touched_after_intermediateCommit (h : list Event) : bool :=
  existsb touches_savepoint (after_intermediateCommit h).

(** The world after a run issued the calls [issued] and logged [lines]. *)
Definition extend (w : World) (issued : list Event) (lines : list string) : World :=
  {| calls := calls w ++ issued; errlog := errlog w ++ lines |}.

Section Scenarios.
Context {E : Environment}.

(** [finish] called once per element of [bs], in order. *)
Fixpoint finishes (g : RocksDBSavePoint.t) (bs : list bool) : M RocksDBSavePoint.t :=
  match bs with
  | [] => ret g
  | b :: bs' => g' <- RocksDBSavePoint.finish g b ;; finishes g' bs'
  end.

(** The life of a guard: constructed, finished any number of times,
    destroyed. *)
Definition lifetime (trx : TransactionMethods)
    (op : TRI_voc_document_operation_e) (bs : list bool) : M RocksDBSavePoint.t :=
  g <- RocksDBSavePoint.ctor trx op ;;
  g' <- finishes g bs ;;
  RocksDBSavePoint.dtor g'.

(** A guard is constructed, the transaction commits intermediately,
    and the guard is destroyed without [finish]. *)
Definition abandoned_after_commit (trx : TransactionMethods)
    (op : TRI_voc_document_operation_e) : M RocksDBSavePoint.t :=
  g <- RocksDBSavePoint.ctor trx op ;;
  intermediateCommit ;;
  RocksDBSavePoint.dtor g.

(** [DisableIndexing] called [n] times in a row. *)
Fixpoint disable_n (n : nat) (m : RocksDBTrxMethods.t) : M RocksDBTrxMethods.t :=
  match n with
  | O => ret m
  | S n' =>
      r <- RocksDBTrxMethods.DisableIndexing m ;;
      disable_n n' (snd r)
  end.

(** [EnableIndexing] called [n] times in a row. *)
Fixpoint enable_n (n : nat) (m : RocksDBTrxMethods.t) : M RocksDBTrxMethods.t :=
  match n with
  | O => ret m
  | S n' =>
      m' <- RocksDBTrxMethods.EnableIndexing m ;;
      enable_n n' m'
  end.

End Scenarios.

(** An environment in which every engine call answers [s] and no
    rollback step raises. *)
Definition uniform_env (maintainer : bool) (s : Status) : Environment :=
  {| ARANGODB_ENABLE_MAINTAINER_MODE := maintainer;
     status_of := fun _ _ => s;
     value_of := fun _ _ => "v";
     keyMayExist_of := fun _ _ => (true, false);
     raises := fun _ _ => None;
     convertStatus := fun _ _ _ _ =>
       {| errorNumber := TRI_ERROR_OTHER 1; errorMessage := "engine failure" |};
     TRI_errno_string := fun _ => "error" |}.

(** An environment whose [rollbackOperation] raises. *)
Definition raising_env : Environment :=
  {| ARANGODB_ENABLE_MAINTAINER_MODE := true;
     status_of := fun _ _ => kOk;
     value_of := fun _ _ => "v";
     keyMayExist_of := fun _ _ => (true, false);
     raises := fun _ c =>
       if is_rollbackOperation c then Some (StdException "out of memory") else None;
     convertStatus := fun _ _ _ _ =>
       {| errorNumber := TRI_ERROR_OTHER 1; errorMessage := "engine failure" |};
     TRI_errno_string := fun _ => "error" |}.

Definition multi_operation_trx : TransactionMethods :=
  {| isSingleOperationTransaction := false |}.

Definition single_operation_trx : TransactionMethods :=
  {| isSingleOperationTransaction := true |}.

(** The hint set that holds [INTERMEDIATE_COMMITS] and nothing else. *)
Definition intermediate_commits_only (h : Hint) : bool :=
  match h with INTERMEDIATE_COMMITS => true | _ => false end.

Definition sample_state (hints : Hint -> bool) (snap : option Snapshot)
  : RocksDBTransactionState :=
  {| _rocksReadOptions :=
       {| snapshot := None; verify_checksums := false; fill_cache := true;
          prefix_same_as_start := true; total_order_seek := false |};
     _readSnapshot := snap;
     hasHint := hints |}.

(* ================================================================== *)
(** ** RocksDBMethods::countInBounds *)
(* ================================================================== *)

(** [RocksDBKeyBounds], as far as [countInBounds] reads it; its
    [columnFamily()] is never null. *)
Record RocksDBKeyBounds : Type := mkBounds {
  columnFamily : ColumnFamilyHandle;
  start : Slice;
  end_ : Slice
}.

(** A positioned [rocksdb::Iterator], given by the keys it yields
    from its position on: [Valid()] says the list is not empty,
    [key()] is its head and [Next()] moves to its tail. *)
Definition Iterator : Type := list Slice.

(** [++count] on a [std::size_t]. *)
Definition incr (count : Z) : Z := ((count + 1) mod 2 ^ 64)%Z.

Section CountInBounds.
Context {E : Environment}.

(** [cf->GetComparator()->Compare(a, b)]. *)
Variable Compare : ColumnFamilyHandle -> Slice -> Slice -> Z.

(** The iterator [this->NewIterator(ro, cf)] hands out, as
    [Seek(target)] leaves it; the strategy and the engine behind it
    decide, given the history. *)
Variable NewIterator_Seek :
  list Event -> ReadOptions -> ColumnFamilyHandle -> Slice -> Iterator.

(** [while (iter->Valid() && cmp->Compare(iter->key(), end) < 0)
       { iter->Next(); ++count; }] *)
Fixpoint count_while (cf : ColumnFamilyHandle) (end_key : Slice)
    (iter : Iterator) (count : Z) : Z :=
  match iter with
  | [] => count
  | k :: iter' =>
      if (Compare cf k end_key <? 0)%Z
      then count_while cf end_key iter' (incr count)
      else count
  end.

(** [countInBounds]; the function exists in maintainer builds only. *)
Definition countInBounds (_state : RocksDBTransactionState)
    (bounds : RocksDBKeyBounds) (isElementInRange : bool) : M Z :=
  let count := 0%Z in
  ro <- iteratorReadOptions _state ;;
  iter <- (fun w =>
             (Returned (NewIterator_Seek (calls w) ro
                          (columnFamily bounds) (start bounds)), w)) ;;
  let end_key := end_ bounds in
  let cf := columnFamily bounds in
  match iter with
  | k :: iter' =>
      if (Compare cf k end_key <? 0)%Z then
        let count := incr count in
        if isElementInRange then ret count
        else ret (count_while cf end_key iter' count)
      else ret (count_while cf end_key iter count)
  | [] => ret (count_while cf end_key iter count)
  end.

(** The keys an iterator yields before the first one that is not
    below [end_key]. *)
Fixpoint keys_below (cf : ColumnFamilyHandle) (end_key : Slice)
    (iter : Iterator) : list Slice :=
  match iter with
  | [] => []
  | k :: iter' =>
      if (Compare cf k end_key <? 0)%Z
      then k :: keys_below cf end_key iter'
      else []
  end.

(** The keys come in the order of the comparator. *)
Fixpoint in_comparator_order (cf : ColumnFamilyHandle) (iter : Iterator) : Prop :=
  match iter with
  | [] => True
  | k :: iter' =>
      Forall (fun k' => (Compare cf k k' <= 0)%Z) iter' /\
      in_comparator_order cf iter'
  end.

End CountInBounds.

(** The bytewise order of two keys, as a [Compare] result. *)
Definition bytewise_Compare (_ : ColumnFamilyHandle) (a b : Slice) : Z :=
  match String.compare a b with
  | Lt => (-1)%Z
  | Eq => 0%Z
  | Gt => 1%Z
  end.

(* ================================================================== *)
(** ** More observations and scenarios *)
(* ================================================================== *)

(** The calls that read from the engine handle. *)
Definition is_db_read (e : Event) : bool :=
  match e with
  | Db_KeyMayExist _ _ _ | Db_Get _ _ _ => true
  | _ => false
  end.

(** The calls that read, on any collaborator. *)
Definition is_read (e : Event) : bool :=
  match e with
  | Db_KeyMayExist _ _ _ | Db_Get _ _ _
  | Trx_Get _ _ _ | Wb_GetFromBatchAndDB _ _ _ => true
  | _ => false
  end.

(** A computation only ever issues calls of kind [p], and logs
    nothing, however it ends. *)
Definition issues_only {A : Type} (p : Event -> bool) (m : M A) : Prop :=
  forall w, exists issued,
    snd (m w) = extend w issued [] /\ forallb p issued = true.

(** A computation aborts at once, before any call. *)
Definition aborts_untouched {A : Type} (m : M A) : Prop :=
  forall w, m w = (Aborted, w).

(** The indexing calls of a history alternate, starting with
    [DisableIndexing] when indexing is enabled and with
    [EnableIndexing] when it is disabled. *)
Fixpoint alternates (disabled : bool) (h : list Event) : bool :=
  match h with
  | [] => true
  | Trx_DisableIndexing :: h' => negb disabled && alternates true h'
  | Trx_EnableIndexing :: h' => disabled && alternates false h'
  | _ :: _ => false
  end.

Inductive IndexingCall : Type :=
| CallDisableIndexing
| CallEnableIndexing.

Section MoreScenarios.
Context {E : Environment}.

(** Calls of [DisableIndexing] and [EnableIndexing] in any order. *)
Fixpoint run_indexing (ops : list IndexingCall) (m : RocksDBTrxMethods.t)
  : M RocksDBTrxMethods.t :=
  match ops with
  | [] => ret m
  | CallDisableIndexing :: ops' =>
      r <- RocksDBTrxMethods.DisableIndexing m ;;
      run_indexing ops' (snd r)
  | CallEnableIndexing :: ops' =>
      m' <- RocksDBTrxMethods.EnableIndexing m ;;
      run_indexing ops' m'
  end.

(** The exception a rollback for [op] meets when it starts in the
    history [h]: that of [RollbackToSavePoint], else that of
    [rollbackOperation]. *)
Definition rollback_raises (h : list Event)
    (op : TRI_voc_document_operation_e) : option Exception :=
  match raises h Methods_RollbackToSavePoint with
  | Some e => Some e
  | None => raises (h ++ [Methods_RollbackToSavePoint]) (State_rollbackOperation op)
  end.

(** The line the destructor logs for an exception, if any. *)
Definition logged_for (e : option Exception) : list string :=
  match e with
  | Some ex =>
      match what ex with
      | Some msg => ["caught exception during rollback to savepoint: " ++ msg]%string
      | None => []
      end
  | None => []
  end.

End MoreScenarios.

(** [convertStatus] never turns a failure into the success result. *)
Definition convertStatus_keeps_failure {E : Environment} : Prop :=
  forall s hint prefix postfix,
    ok s = false -> Result_is_ok (convertStatus s hint prefix postfix) = false.

(** An environment that answers not-found to every engine call. *)
Definition not_found_env : Environment := uniform_env true kNotFound.

(** An environment whose [RollbackToSavePoint] raises something that
    is not a [std::exception]. *)
Definition foreign_raising_env : Environment :=
  {| ARANGODB_ENABLE_MAINTAINER_MODE := false;
     status_of := fun _ _ => kOk;
     value_of := fun _ _ => "v";
     keyMayExist_of := fun _ _ => (true, false);
     raises := fun _ c =>
       if is_RollbackToSavePoint c then Some ForeignException else None;
     convertStatus := fun _ _ _ _ =>
       {| errorNumber := TRI_ERROR_OTHER 1; errorMessage := "engine failure" |};
     TRI_errno_string := fun _ => "error" |}.

(** An iterator over three keys, whatever it is asked for. *)
Definition three_keys (_ : list Event) (_ : ReadOptions)
    (_ : ColumnFamilyHandle) (_ : Slice) : Iterator :=
  ["a"; "b"; "c"]%string.

(* ================================================================== *)
(** ** Facts about the monad and the histories *)
(* ================================================================== *)

Lemma count_app (p : Event -> bool) (h1 h2 : list Event) :
  count p (h1 ++ h2) = count p h1 + count p h2.
Proof.
  unfold count. rewrite filter_app, length_app. reflexivity.
Qed.

Lemma extend_nil (w : World) : extend w [] [] = w.
Proof.
  destruct w as [h l]. unfold extend; simpl. now rewrite !app_nil_r.
Qed.

Lemma extend_extend (w : World) (i1 i2 : list Event) (l1 l2 : list string) :
  extend (extend w i1 l1) i2 l2 = extend w (i1 ++ i2) (l1 ++ l2).
Proof.
  unfold extend; simpl. now rewrite !app_assoc.
Qed.

Lemma record_call_extend (c : Event) (w : World) :
  record_call c w = extend w [c] [].
Proof.
  unfold record_call, extend. now rewrite app_nil_r.
Qed.

Section GuardFacts.
Context {E : Environment}.

Lemma TRI_ASSERT_true (w : World) : TRI_ASSERT true w = (Returned tt, w).
Proof.
  unfold TRI_ASSERT. simpl. now rewrite andb_false_r.
Qed.

Lemma set_handled_idem (g : RocksDBSavePoint.t) :
  RocksDBSavePoint._handled g = true -> RocksDBSavePoint.set_handled true g = g.
Proof.
  destruct g as [tr op h]; simpl; intros ->. reflexivity.
Qed.

(** What the constructor does, in one equation. *)
Lemma ctor_eq (trx : TransactionMethods) (op : TRI_voc_document_operation_e)
    (w : World) :
  RocksDBSavePoint.ctor trx op w =
  (Returned (RocksDBSavePoint.mk trx op (isSingleOperationTransaction trx)),
   if isSingleOperationTransaction trx then w
   else record_call Methods_SetSavePoint w).
Proof.
  unfold RocksDBSavePoint.ctor, bind. rewrite TRI_ASSERT_true. simpl.
  destruct (isSingleOperationTransaction trx); reflexivity.
Qed.

(** What [finish] does, in one equation. *)
Lemma finish_eq (g : RocksDBSavePoint.t) (b : bool) (w : World) :
  RocksDBSavePoint.finish g b w =
  (Returned (RocksDBSavePoint.set_handled true g),
   if negb (RocksDBSavePoint._handled g) && negb b
   then record_call Methods_PopSavePoint w else w).
Proof.
  unfold RocksDBSavePoint.finish, bind.
  destruct (negb (RocksDBSavePoint._handled g) && negb b); reflexivity.
Qed.

(** The destructor of a handled guard does nothing. *)
Lemma dtor_handled (g : RocksDBSavePoint.t) (w : World) :
  RocksDBSavePoint._handled g = true ->
  RocksDBSavePoint.dtor g w = (Returned g, w).
Proof.
  intros H. unfold RocksDBSavePoint.dtor. rewrite H. reflexivity.
Qed.

(** The destructor of a created guard always returns, never aborts
    and lets no exception escape; it issues [RollbackToSavePoint]
    once, then [rollbackOperation] unless the former raised. *)
Lemma dtor_created (trx : TransactionMethods)
    (op : TRI_voc_document_operation_e) (w : World) :
  exists g' issued lines,
    RocksDBSavePoint.dtor (RocksDBSavePoint.mk trx op false) w =
      (Returned g', extend w issued lines) /\
    (issued = [Methods_RollbackToSavePoint] \/
     issued = [Methods_RollbackToSavePoint; State_rollbackOperation op]).
Proof.
  unfold RocksDBSavePoint.dtor, RocksDBSavePoint.rollback, try_catch, bind.
  simpl. rewrite TRI_ASSERT_true. unfold invoke.
  destruct (raises (calls w) Methods_RollbackToSavePoint) as [e1|] eqn:R1.
  - destruct (what e1) as [msg|]; eexists; exists [Methods_RollbackToSavePoint].
    + eexists [_]. split; [reflexivity | now left].
    + exists []. split; [|now left].
      unfold ret, extend, record_call; simpl. now rewrite app_nil_r.
  - simpl.
    destruct (raises (calls w ++ [Methods_RollbackToSavePoint])
                (State_rollbackOperation op)) as [e2|] eqn:R2.
    + destruct (what e2) as [msg|]; eexists;
        exists [Methods_RollbackToSavePoint; State_rollbackOperation op].
      * eexists [_]. split; [|now right].
        unfold LOG_TOPIC_ERR, ret, extend, record_call; simpl.
        now rewrite <- app_assoc.
      * exists []. split; [|now right].
        unfold ret, extend, record_call; simpl.
        now rewrite <- app_assoc, app_nil_r.
    + eexists; exists [Methods_RollbackToSavePoint; State_rollbackOperation op], [].
      split; [|now right].
      unfold ret, extend, record_call; simpl.
      now rewrite <- app_assoc, app_nil_r.
Qed.

End GuardFacts.

Section GuardLifetime.
Context {E : Environment}.

Lemma finishes_handled (g : RocksDBSavePoint.t) (bs : list bool) (w : World) :
  RocksDBSavePoint._handled g = true ->
  finishes g bs w = (Returned g, w).
Proof.
  intros H. induction bs as [|b bs IH]; simpl; [reflexivity|].
  unfold bind. rewrite finish_eq, H. simpl.
  rewrite (set_handled_idem g H). exact IH.
Qed.

Lemma finishes_created (trx : TransactionMethods)
    (op : TRI_voc_document_operation_e) (b : bool) (bs : list bool) (w : World) :
  finishes (RocksDBSavePoint.mk trx op false) (b :: bs) w =
  (Returned (RocksDBSavePoint.mk trx op true),
   if b then w else record_call Methods_PopSavePoint w).
Proof.
  simpl. unfold bind. rewrite finish_eq. simpl.
  rewrite finishes_handled by reflexivity.
  destruct b; reflexivity.
Qed.

(** Over its whole life a guard pops or rolls back at most once. *)
Lemma lifetime_at_most_once (trx : TransactionMethods)
    (op : TRI_voc_document_operation_e) (bs : list bool) (w : World) :
  exists g' issued lines,
    lifetime trx op bs w = (Returned g', extend w issued lines) /\
    count touches_savepoint issued <= 1.
Proof.
  unfold lifetime, bind. rewrite ctor_eq.
  destruct (isSingleOperationTransaction trx) eqn:Hs.
  - rewrite finishes_handled by reflexivity.
    rewrite dtor_handled by reflexivity.
    eexists; exists [], []. rewrite extend_nil. split; [reflexivity|].
    cbn; lia.
  - destruct bs as [|b bs].
    + simpl finishes. unfold ret at 1.
      destruct (dtor_created trx op (record_call Methods_SetSavePoint w))
        as (g' & issued & lines & Hd & Hi).
      rewrite Hd, record_call_extend, extend_extend.
      exists g'; eexists; eexists. split; [reflexivity|].
      destruct Hi as [-> | ->]; cbn; lia.
    + rewrite finishes_created.
      rewrite dtor_handled by reflexivity.
      destruct b.
      * rewrite record_call_extend.
        eexists; eexists; eexists. split; [reflexivity|]. cbn; lia.
      * rewrite !record_call_extend, extend_extend.
        eexists; eexists; eexists. split; [reflexivity|]. cbn; lia.
Qed.

(** The destructor of a created guard rolls back exactly once and
    never pops. *)
Lemma dtor_created_once (trx : TransactionMethods)
    (op : TRI_voc_document_operation_e) (w : World) :
  exists g' issued lines,
    RocksDBSavePoint.dtor (RocksDBSavePoint.mk trx op false) w =
      (Returned g', extend w issued lines) /\
    count is_RollbackToSavePoint issued = 1 /\
    count is_PopSavePoint issued = 0 /\
    count is_rollbackOperation issued <= 1.
Proof.
  destruct (dtor_created trx op w) as (g' & issued & lines & Hd & Hi).
  exists g', issued, lines. split; [exact Hd|].
  destruct Hi as [-> | ->]; cbn; repeat split; lia.
Qed.

(** A guard destroyed without [finish] rolls back also when the
    transaction committed intermediately between construction and
    destruction: the destructor does not look. *)
Lemma abandoned_after_commit_rolls_back (op : TRI_voc_document_operation_e)
    (w : World) :
  exists g' rest lines,
    abandoned_after_commit multi_operation_trx op w =
      (Returned g',
       extend w ([Methods_SetSavePoint; State_intermediateCommit;
                  Methods_RollbackToSavePoint] ++ rest) lines).
Proof.
  unfold abandoned_after_commit, bind. rewrite ctor_eq.
  cbn [isSingleOperationTransaction multi_operation_trx].
  unfold intermediateCommit.
  destruct (dtor_created multi_operation_trx op
              (record_call State_intermediateCommit
                 (record_call Methods_SetSavePoint w)))
    as (g' & issued & lines & Hd & Hi).
  rewrite Hd, !record_call_extend, !extend_extend.
  exists g'. destruct Hi as [-> | ->]; eexists; eexists; reflexivity.
Qed.

End GuardLifetime.

(* ================================================================== *)
(** ** The SavePoint guard: claims *)
(* ================================================================== *)

(** C1.  The claim asks that a guard never pops or rolls back its
    savepoint once the transaction has committed intermediately, on
    any exit path.  The destructor does not meet it: a guard of a
    multi-operation transaction that is destroyed without [finish]
    after an intermediate commit issues [RollbackToSavePoint] and
    [rollbackOperation] all the same. *)
Theorem SavePoint_destructor_rolls_back_after_intermediate_commit :
  let E := uniform_env false kOk in
  let run := abandoned_after_commit multi_operation_trx
               TRI_VOC_DOCUMENT_OPERATION_INSERT empty_world in
  run =
    (Returned (RocksDBSavePoint.mk multi_operation_trx
                 TRI_VOC_DOCUMENT_OPERATION_INSERT true),
     {| calls := [Methods_SetSavePoint; State_intermediateCommit;
                  Methods_RollbackToSavePoint;
                  State_rollbackOperation TRI_VOC_DOCUMENT_OPERATION_INSERT];
        errlog := [] |}) /\
  touched_after_intermediateCommit (calls (snd run)) = true.
Proof.
  split; reflexivity.
Qed.

(** C2.  A guard is never finished or rolled back twice.  A guard
    still in the created state rolls back exactly once when
    destroyed, whatever the collaborators answer or raise;
    a handled guard is left alone by the destructor, which then
    issues no call at all; [finish], a completed [rollback] and the
    construction for a single-operation transaction all leave the
    guard handled; and over a whole life (construction, any number of
    [finish] calls, destruction) at most one call pops or rolls back
    the savepoint. *)
Theorem SavePoint_never_handled_twice {E : Environment} :
  (forall trx op w,
      exists g' issued lines,
        RocksDBSavePoint.dtor (RocksDBSavePoint.mk trx op false) w =
          (Returned g', extend w issued lines) /\
        count is_RollbackToSavePoint issued = 1 /\
        count is_PopSavePoint issued = 0 /\
        count is_rollbackOperation issued <= 1) /\
  (forall g w,
      RocksDBSavePoint._handled g = true ->
      RocksDBSavePoint.dtor g w = (Returned g, w)) /\
  (forall g b w,
      exists g' w',
        RocksDBSavePoint.finish g b w = (Returned g', w') /\
        RocksDBSavePoint._handled g' = true) /\
  (forall g w g' w',
      RocksDBSavePoint.rollback g w = (Returned g', w') ->
      RocksDBSavePoint._handled g' = true) /\
  (forall trx op w,
      isSingleOperationTransaction trx = true ->
      exists g',
        RocksDBSavePoint.ctor trx op w = (Returned g', w) /\
        RocksDBSavePoint._handled g' = true) /\
  (forall trx op bs w,
      exists g' issued lines,
        lifetime trx op bs w = (Returned g', extend w issued lines) /\
        count touches_savepoint issued <= 1).
Proof.
  split; [exact dtor_created_once|].
  split; [exact dtor_handled|].
  split.
  { intros g b w. rewrite finish_eq. eexists; eexists; split; reflexivity. }
  split.
  { intros g w g' w'. unfold RocksDBSavePoint.rollback, bind, TRI_ASSERT, invoke.
    destruct (ARANGODB_ENABLE_MAINTAINER_MODE && _); [discriminate|].
    destruct (raises _ _); [discriminate|].
    destruct (raises _ _); [discriminate|].
    unfold ret. intros [= <- _]. reflexivity. }
  split.
  { intros trx op w Hs. rewrite ctor_eq, Hs. eexists; split; reflexivity. }
  exact lifetime_at_most_once.
Qed.

(** C4.  On a guard in the created state, [finish(true)] issues no
    call, [finish(false)] issues exactly one [PopSavePoint], and both
    leave the guard handled, so that its destructor does nothing. *)
Theorem SavePoint_finish_created {E : Environment}
    (trx : TransactionMethods) (op : TRI_voc_document_operation_e) (w : World) :
  let created := RocksDBSavePoint.mk trx op false in
  let handled := RocksDBSavePoint.mk trx op true in
  RocksDBSavePoint.finish created true w = (Returned handled, w) /\
  RocksDBSavePoint.finish created false w =
    (Returned handled, record_call Methods_PopSavePoint w) /\
  calls (record_call Methods_PopSavePoint w) = calls w ++ [Methods_PopSavePoint] /\
  forall w', RocksDBSavePoint.dtor handled w' = (Returned handled, w').
Proof.
  cbv zeta. rewrite !finish_eq.
  cbn [RocksDBSavePoint._handled RocksDBSavePoint.set_handled negb andb
       RocksDBSavePoint._trx RocksDBSavePoint._operationType].
  split; [reflexivity|]. split; [reflexivity|]. split; [reflexivity|].
  intros w'. now apply dtor_handled.
Qed.

(** C5.  The constructor returns a guard that is handled exactly
    when the transaction is a single-operation transaction; in that
    case it issues no call, otherwise it issues one [SetSavePoint]
    and nothing else. *)
Theorem SavePoint_ctor_spec {E : Environment}
    (trx : TransactionMethods) (op : TRI_voc_document_operation_e) (w : World) :
  exists g w',
    RocksDBSavePoint.ctor trx op w = (Returned g, w') /\
    RocksDBSavePoint._trx g = trx /\
    RocksDBSavePoint._operationType g = op /\
    RocksDBSavePoint._handled g = isSingleOperationTransaction trx /\
    errlog w' = errlog w /\
    calls w' = calls w ++
      (if isSingleOperationTransaction trx then [] else [Methods_SetSavePoint]).
Proof.
  rewrite ctor_eq. eexists; eexists. split; [reflexivity|].
  simpl. repeat split.
  - destruct (isSingleOperationTransaction trx); reflexivity.
  - destruct (isSingleOperationTransaction trx); simpl;
      [now rewrite app_nil_r | reflexivity].
Qed.

(* ================================================================== *)
(** ** The strategies: claims *)
(* ================================================================== *)

(** C3.  On the read-only strategy [Put], [Delete] and [SingleDelete]
    throw the read-only error for every argument, a null column
    family included, in every build; nothing is returned, no
    assertion is evaluated and no call reaches a collaborator. *)
Theorem ReadOnly_writes_throw {E : Environment}
    (m : RocksDBReadOnlyMethods.t) (cf : cf_ptr) (key : RocksDBKey)
    (val : Slice) (hint : StatusHint) (w : World) :
  let read_only :=
    ArangoException TRI_ERROR_ARANGO_READ_ONLY
      (TRI_errno_string TRI_ERROR_ARANGO_READ_ONLY) in
  RocksDBReadOnlyMethods.Put m cf key val hint w = (Thrown read_only, w) /\
  RocksDBReadOnlyMethods.Delete m cf key w = (Thrown read_only, w) /\
  RocksDBReadOnlyMethods.SingleDelete m cf key w = (Thrown read_only, w).
Proof.
  repeat split.
Qed.

(** C6.  On the batched strategy [Put], [Delete] and [SingleDelete]
    hand the operation to the write batch and return the success
    result, whatever the history and whatever status the batch
    answers. *)
Theorem Batched_writes_succeed {E : Environment}
    (m : RocksDBBatchedMethods.t) (cf : ColumnFamilyHandle) (key : RocksDBKey)
    (val : Slice) (hint : StatusHint) (w : World) :
  RocksDBBatchedMethods.Put m (Some cf) key val hint w =
    (Returned Result_ok, record_call (Wb_Put (Some cf) (key_string key) val) w) /\
  RocksDBBatchedMethods.Delete m (Some cf) key w =
    (Returned Result_ok, record_call (Wb_Delete (Some cf) (key_string key)) w) /\
  RocksDBBatchedMethods.SingleDelete m (Some cf) key w =
    (Returned Result_ok, record_call (Wb_SingleDelete (Some cf) (key_string key)) w) /\
  Result_is_ok Result_ok = true.
Proof.
  unfold RocksDBBatchedMethods.Put, RocksDBBatchedMethods.Delete,
    RocksDBBatchedMethods.SingleDelete, bind.
  cbn [is_null negb]. rewrite !TRI_ASSERT_true.
  repeat split.
Qed.

(** C7.  On the transactional strategy [Exists] asks the transaction
    object for the key under the shared read options and answers
    [true] exactly when the status is not not-found. *)
Theorem Trx_Exists_spec {E : Environment}
    (m : RocksDBTrxMethods.t) (cf : ColumnFamilyHandle) (key : RocksDBKey)
    (w : World) :
  let get := Trx_Get (_rocksReadOptions (RocksDBTrxMethods._state m))
               (Some cf) (key_string key) in
  let s := status_of (calls w) get in
  RocksDBTrxMethods.Exists m (Some cf) key w =
    (Returned (negb (IsNotFound s)), record_call get w) /\
  (negb (IsNotFound s) = true <-> s <> kNotFound).
Proof.
  cbv zeta. unfold RocksDBTrxMethods.Exists, bind.
  cbn [is_null negb]. rewrite TRI_ASSERT_true.
  split; [reflexivity|].
  destruct (status_of _ _); simpl; split; congruence.
Qed.

(** C8.  [iteratorReadOptions] returns the shared read options with
    the snapshot replaced by the transaction-wide one when the hints
    allow intermediate commits, and the shared read options as they
    are otherwise.  The code asserts that the transaction-wide
    snapshot is set; a maintainer build needs that to get past the
    assertion. *)
Theorem iteratorReadOptions_spec {E : Environment}
    (st : RocksDBTransactionState) (w : World) :
  (ARANGODB_ENABLE_MAINTAINER_MODE = true ->
   hasHint st INTERMEDIATE_COMMITS = true ->
   _readSnapshot st <> None) ->
  exists ro,
    iteratorReadOptions st w = (Returned ro, w) /\
    (hasHint st INTERMEDIATE_COMMITS = true ->
       ro = set_snapshot (_readSnapshot st) (_rocksReadOptions st) /\
       snapshot ro = _readSnapshot st) /\
    (hasHint st INTERMEDIATE_COMMITS = false ->
       ro = _rocksReadOptions st).
Proof.
  intros Hassert. unfold iteratorReadOptions, bind, TRI_ASSERT.
  destruct (hasHint st INTERMEDIATE_COMMITS) eqn:Hh.
  - destruct ARANGODB_ENABLE_MAINTAINER_MODE eqn:Hm.
    + destruct (_readSnapshot st) as [snap|] eqn:Hs.
      * simpl. eexists. split; [reflexivity|]. split; [|discriminate].
        intros _. split; reflexivity.
      * exfalso. now apply Hassert.
    + simpl. eexists. split; [reflexivity|]. split; [|discriminate].
      intros _. split; reflexivity.
  - eexists. split; [reflexivity|]. split; [discriminate|]. reflexivity.
Qed.

Section IndexingFacts.
Context {E : Environment}.

Lemma disable_n_disabled (n : nat) (m : RocksDBTrxMethods.t) (w : World) :
  RocksDBTrxMethods._indexingDisabled m = true ->
  disable_n n m w = (Returned m, w).
Proof.
  intros H. induction n as [|n IH]; [reflexivity|].
  simpl. unfold bind, RocksDBTrxMethods.DisableIndexing. rewrite H. simpl.
  exact IH.
Qed.

Lemma enable_n_enabled (n : nat) (m : RocksDBTrxMethods.t) (w : World) :
  RocksDBTrxMethods._indexingDisabled m = false ->
  enable_n n m w = (Returned m, w).
Proof.
  intros H. induction n as [|n IH]; [reflexivity|].
  simpl. unfold bind, RocksDBTrxMethods.EnableIndexing. rewrite H. simpl.
  exact IH.
Qed.

End IndexingFacts.

(** C9.  From the enabled state the first [DisableIndexing] disables
    and returns [true]; on the disabled state it returns [false] and
    issues nothing; [EnableIndexing] on the disabled state enables
    with one call to the transaction object, and does nothing on the
    enabled state.  So after any positive number of
    [DisableIndexing] calls, any positive number of [EnableIndexing]
    calls leaves the object enabled, with one [DisableIndexing] and
    one [EnableIndexing] issued in all. *)
Theorem Trx_indexing_toggle {E : Environment}
    (st : RocksDBTransactionState) (w : World) (n k : nat) :
  let enabled := RocksDBTrxMethods.mk st false in
  let disabled := RocksDBTrxMethods.mk st true in
  RocksDBTrxMethods.ctor st = enabled /\
  RocksDBTrxMethods.DisableIndexing enabled w =
    (Returned (true, disabled), record_call Trx_DisableIndexing w) /\
  RocksDBTrxMethods.DisableIndexing disabled w = (Returned (false, disabled), w) /\
  RocksDBTrxMethods.EnableIndexing disabled w =
    (Returned enabled, record_call Trx_EnableIndexing w) /\
  RocksDBTrxMethods.EnableIndexing enabled w = (Returned enabled, w) /\
  (m <- disable_n (S n) enabled ;; enable_n (S k) m) w =
    (Returned enabled, extend w [Trx_DisableIndexing; Trx_EnableIndexing] []).
Proof.
  cbv zeta. repeat (split; [reflexivity|]).
  unfold bind; cbn [disable_n]; unfold bind.
  change (RocksDBTrxMethods.DisableIndexing (RocksDBTrxMethods.mk st false) w)
    with (Returned (true, RocksDBTrxMethods.mk st true),
          record_call Trx_DisableIndexing w).
  cbn [snd]. rewrite disable_n_disabled by reflexivity.
  cbn [enable_n]; unfold bind.
  change (RocksDBTrxMethods.EnableIndexing (RocksDBTrxMethods.mk st true)
            (record_call Trx_DisableIndexing w))
    with (Returned (RocksDBTrxMethods.mk st false),
          record_call Trx_EnableIndexing (record_call Trx_DisableIndexing w)).
  cbv beta iota. rewrite enable_n_enabled by reflexivity.
  unfold record_call, extend; simpl. now rewrite <- app_assoc, app_nil_r.
Qed.

(** C10.  On the batched strategy [Exists] looks the key up in the
    batch merged with the database, under default-constructed read
    options whose snapshot is null, and answers [true] exactly when
    the status is not not-found. *)
Theorem Batched_Exists_spec {E : Environment}
    (m : RocksDBBatchedMethods.t) (cf : ColumnFamilyHandle) (key : RocksDBKey)
    (w : World) :
  let lookup := Wb_GetFromBatchAndDB ReadOptions_default (Some cf) (key_string key) in
  let s := status_of (calls w) lookup in
  RocksDBBatchedMethods.Exists m (Some cf) key w =
    (Returned (negb (IsNotFound s)), record_call lookup w) /\
  (negb (IsNotFound s) = true <-> s <> kNotFound) /\
  snapshot ReadOptions_default = None.
Proof.
  cbv zeta. unfold RocksDBBatchedMethods.Exists, bind.
  cbn [is_null negb]. rewrite TRI_ASSERT_true.
  split; [reflexivity|]. split; [|reflexivity].
  destruct (status_of _ _); simpl; split; congruence.
Qed.

(* ================================================================== *)
(** ** The claims at concrete inputs *)
(* ================================================================== *)

(** In a maintainer build: a handled guard is left alone by its
    destructor, a completed rollback leaves the guard handled, and
    the guard of a single-operation transaction is born handled. *)
Lemma SavePoint_never_handled_twice_witness :
  let E := uniform_env true kOk in
  let handled := RocksDBSavePoint.mk multi_operation_trx
                   TRI_VOC_DOCUMENT_OPERATION_REMOVE true in
  RocksDBSavePoint.dtor handled empty_world = (Returned handled, empty_world) /\
  RocksDBSavePoint._handled handled = true /\
  exists g',
    RocksDBSavePoint.ctor single_operation_trx
      TRI_VOC_DOCUMENT_OPERATION_INSERT empty_world = (Returned g', empty_world) /\
    RocksDBSavePoint._handled g' = true.
Proof.
  cbv zeta.
  destruct (@SavePoint_never_handled_twice (uniform_env true kOk))
    as (_ & Hdtor & _ & Hrollback & Hctor & _).
  split; [|split].
  - apply Hdtor. reflexivity.
  - apply (Hrollback
             (RocksDBSavePoint.mk multi_operation_trx
                TRI_VOC_DOCUMENT_OPERATION_REMOVE false)
             empty_world _
             {| calls := [Methods_RollbackToSavePoint;
                          State_rollbackOperation TRI_VOC_DOCUMENT_OPERATION_REMOVE];
                errlog := [] |}).
    reflexivity.
  - apply Hctor. reflexivity.
Defined.

(** An I/O error of the transaction object is reported as "exists". *)
Lemma Trx_Exists_spec_witness :
  let E := uniform_env true kIOError in
  let m := RocksDBTrxMethods.ctor (sample_state intermediate_commits_only (Some 7)) in
  RocksDBTrxMethods.Exists m (Some 3) (mkKey "k1") empty_world =
    (Returned true,
     {| calls := [Trx_Get (_rocksReadOptions (RocksDBTrxMethods._state m))
                    (Some 3) "k1"];
        errlog := [] |}) /\
  kIOError <> kNotFound.
Proof.
  cbv zeta.
  destruct (@Trx_Exists_spec (uniform_env true kIOError)
              (RocksDBTrxMethods.ctor (sample_state intermediate_commits_only (Some 7)))
              3 (mkKey "k1") empty_world) as [Hrun [Hto _]].
  split; [exact Hrun|].
  apply Hto. reflexivity.
Defined.

(** A maintainer build, intermediate commits allowed, snapshot 7
    pinned: the returned options carry snapshot 7 and the other
    fields of the shared options. *)
Lemma iteratorReadOptions_spec_witness :
  let E := uniform_env true kOk in
  let st := sample_state intermediate_commits_only (Some 7) in
  exists ro,
    iteratorReadOptions st empty_world = (Returned ro, empty_world) /\
    ro = {| snapshot := Some 7; verify_checksums := false; fill_cache := true;
            prefix_same_as_start := true; total_order_seek := false |}.
Proof.
  cbv zeta.
  destruct (@iteratorReadOptions_spec (uniform_env true kOk)
              (sample_state intermediate_commits_only (Some 7)) empty_world)
    as (ro & Hrun & Hhint & _).
  - intros _ _. simpl. discriminate.
  - exists ro. split; [exact Hrun|].
    destruct Hhint as [Hro _]; [reflexivity|]. exact Hro.
Defined.

(** An I/O error of the batch lookup is reported as "exists". *)
Lemma Batched_Exists_spec_witness :
  let E := uniform_env false kIOError in
  let m := RocksDBBatchedMethods.mk (sample_state (fun _ => false) None) in
  RocksDBBatchedMethods.Exists m (Some 3) (mkKey "k1") empty_world =
    (Returned true,
     {| calls := [Wb_GetFromBatchAndDB ReadOptions_default (Some 3) "k1"];
        errlog := [] |}) /\
  kIOError <> kNotFound.
Proof.
  cbv zeta.
  destruct (@Batched_Exists_spec (uniform_env false kIOError)
              (RocksDBBatchedMethods.mk (sample_state (fun _ => false) None))
              3 (mkKey "k1") empty_world) as [Hrun [[Hto _] _]].
  split; [exact Hrun|].
  apply Hto. reflexivity.
Defined.

(* ================================================================== *)
(** ** Further checks of the embedding *)
(* ================================================================== *)

(** When [rollbackOperation] raises, the destructor logs the message
    and returns; the guard is left as it was. *)
Example dtor_contains_exception :
  let E := raising_env in
  let created := RocksDBSavePoint.mk multi_operation_trx
                   TRI_VOC_DOCUMENT_OPERATION_UPDATE false in
  RocksDBSavePoint.dtor created empty_world =
    (Returned created,
     {| calls := [Methods_RollbackToSavePoint;
                  State_rollbackOperation TRI_VOC_DOCUMENT_OPERATION_UPDATE];
        errlog := ["caught exception during rollback to savepoint: out of memory"] |}).
Proof.
  reflexivity.
Qed.

(** [rollback] itself is guarded by an assertion only: called on a
    handled guard it aborts a maintainer build. *)
Example rollback_on_handled_aborts :
  let E := uniform_env true kOk in
  RocksDBSavePoint.rollback
    (RocksDBSavePoint.mk multi_operation_trx TRI_VOC_DOCUMENT_OPERATION_UPDATE true)
    empty_world = (Aborted, empty_world).
Proof.
  reflexivity.
Qed.

(** The transactional strategy forwards each savepoint call to the
    transaction object as one call of the same name. *)
Lemma Trx_savepoint_forwarding {E : Environment}
    (m : RocksDBTrxMethods.t) (w : World) :
  RocksDBTrxMethods.SetSavePoint m w = (Returned tt, record_call Trx_SetSavePoint w) /\
  RocksDBTrxMethods.RollbackToSavePoint m w =
    (Returned (convertStatus (status_of (calls w) Trx_RollbackToSavePoint)
                 hint_none "" ""),
     record_call Trx_RollbackToSavePoint w) /\
  snd (RocksDBTrxMethods.PopSavePoint m w) = record_call Trx_PopSavePoint w.
Proof.
  split; [reflexivity|]. split; [reflexivity|].
  unfold RocksDBTrxMethods.PopSavePoint, bind, engine, issue, TRI_ASSERT.
  destruct ARANGODB_ENABLE_MAINTAINER_MODE; simpl; [|reflexivity].
  destruct (ok _); reflexivity.
Qed.

(** The read-only [Exists]: a definite hit of the probe answers
    [true] without a lookup. *)
Lemma ReadOnly_Exists_value_found {E : Environment}
    (m : RocksDBReadOnlyMethods.t) (cf : ColumnFamilyHandle) (key : RocksDBKey)
    (w : World) (mayExist : bool) :
  let probe := Db_KeyMayExist (_rocksReadOptions (RocksDBReadOnlyMethods._state m))
                 (Some cf) (key_string key) in
  keyMayExist_of (calls w) probe = (mayExist, true) ->
  RocksDBReadOnlyMethods.Exists m (Some cf) key w = (Returned true, record_call probe w).
Proof.
  cbv zeta. intros H. unfold RocksDBReadOnlyMethods.Exists, bind.
  cbn [is_null negb]. rewrite TRI_ASSERT_true.
  unfold engine_probe. rewrite H. reflexivity.
Qed.

(* ================================================================== *)
(** ** The SavePoint guard: the destructor and whole lifetimes *)
(* ================================================================== *)

Section DestructorFacts.
Context {E : Environment}.

(** The destructor of a created guard, in one equation. *)
Lemma dtor_created_eq (trx : TransactionMethods)
    (op : TRI_voc_document_operation_e) (w : World) :
  RocksDBSavePoint.dtor (RocksDBSavePoint.mk trx op false) w =
  (Returned (RocksDBSavePoint.mk trx op
               (match rollback_raises (calls w) op with
                | None => true
                | Some _ => false
                end)),
   extend w
     (Methods_RollbackToSavePoint ::
        match raises (calls w) Methods_RollbackToSavePoint with
        | Some _ => []
        | None => [State_rollbackOperation op]
        end)
     (logged_for (rollback_raises (calls w) op))).
Proof.
  unfold RocksDBSavePoint.dtor, RocksDBSavePoint.rollback, try_catch, bind,
    rollback_raises, logged_for.
  cbn [RocksDBSavePoint._handled negb RocksDBSavePoint._operationType].
  rewrite TRI_ASSERT_true. unfold invoke.
  destruct (raises (calls w) Methods_RollbackToSavePoint) as [e1|].
  - destruct (what e1) as [msg|];
      unfold LOG_TOPIC_ERR, ret, extend, record_call; cbn [calls errlog];
      rewrite ?app_nil_r; reflexivity.
  - cbn [calls record_call].
    destruct (raises (calls w ++ [Methods_RollbackToSavePoint])
                (State_rollbackOperation op)) as [e2|].
    + destruct (what e2) as [msg|];
        unfold LOG_TOPIC_ERR, ret, extend, record_call; cbn [calls errlog];
        rewrite <- ?app_assoc, ?app_nil_r; reflexivity.
    + unfold ret, extend, record_call, RocksDBSavePoint.set_handled;
        cbn [calls errlog RocksDBSavePoint._trx RocksDBSavePoint._operationType];
        rewrite <- ?app_assoc, ?app_nil_r; reflexivity.
Qed.

End DestructorFacts.

(** X1.  The destructor always returns: whatever state the guard is
    in and whatever the rollback steps raise, no exception leaves it
    and no assertion fails in it. *)
Theorem SavePoint_dtor_never_throws {E : Environment}
    (g : RocksDBSavePoint.t) (w : World) :
  exists g' w', RocksDBSavePoint.dtor g w = (Returned g', w').
Proof.
  destruct g as [trx op [|]].
  - eexists; eexists. now apply dtor_handled.
  - rewrite dtor_created_eq. eexists; eexists; reflexivity.
Qed.

(** X2.  The destructor of a created guard writes one line to the
    error log when a rollback step raised a [std::exception], the
    prefix followed by [what()], and nothing otherwise: an exception
    of another kind is swallowed without a trace. *)
Theorem SavePoint_dtor_logs_std_exceptions {E : Environment}
    (trx : TransactionMethods) (op : TRI_voc_document_operation_e) (w : World) :
  let w' := snd (RocksDBSavePoint.dtor (RocksDBSavePoint.mk trx op false) w) in
  (forall ex msg,
      rollback_raises (calls w) op = Some ex -> what ex = Some msg ->
      errlog w' =
        errlog w ++ [("caught exception during rollback to savepoint: " ++ msg)%string]) /\
  (forall ex,
      rollback_raises (calls w) op = Some ex -> what ex = None ->
      errlog w' = errlog w) /\
  (rollback_raises (calls w) op = None -> errlog w' = errlog w).
Proof.
  cbv zeta. rewrite dtor_created_eq. cbn [snd extend errlog].
  unfold logged_for. repeat split.
  - intros ex msg -> ->. reflexivity.
  - intros ex -> ->. now rewrite app_nil_r.
  - intros ->. now rewrite app_nil_r.
Qed.

(** X3.  In the destructor of a created guard [rollbackOperation] is
    called exactly when [RollbackToSavePoint] returned, and after it;
    the guard ends handled exactly when neither of them raised. *)
Theorem SavePoint_dtor_order {E : Environment}
    (trx : TransactionMethods) (op : TRI_voc_document_operation_e) (w : World) :
  exists g' w',
    RocksDBSavePoint.dtor (RocksDBSavePoint.mk trx op false) w = (Returned g', w') /\
    (raises (calls w) Methods_RollbackToSavePoint = None ->
       calls w' = calls w ++ [Methods_RollbackToSavePoint; State_rollbackOperation op]) /\
    (raises (calls w) Methods_RollbackToSavePoint <> None ->
       calls w' = calls w ++ [Methods_RollbackToSavePoint]) /\
    (RocksDBSavePoint._handled g' = true <-> rollback_raises (calls w) op = None).
Proof.
  rewrite dtor_created_eq. eexists; eexists. split; [reflexivity|].
  cbn [extend calls RocksDBSavePoint._handled]. repeat split.
  - intros ->. reflexivity.
  - destruct (raises (calls w) Methods_RollbackToSavePoint); [reflexivity|].
    intros H; now contradiction H.
  - destruct (rollback_raises (calls w) op); [discriminate | reflexivity].
  - intros ->. reflexivity.
Qed.

(** X4.  [rollback] itself is protected by its assertion only: on a
    handled guard a maintainer build aborts before any call, and
    another build rolls back again just as on a created guard. *)
Theorem SavePoint_rollback_on_handled {E : Environment}
    (trx : TransactionMethods) (op : TRI_voc_document_operation_e) (w : World) :
  (ARANGODB_ENABLE_MAINTAINER_MODE = true ->
     RocksDBSavePoint.rollback (RocksDBSavePoint.mk trx op true) w = (Aborted, w)) /\
  (ARANGODB_ENABLE_MAINTAINER_MODE = false ->
     RocksDBSavePoint.rollback (RocksDBSavePoint.mk trx op true) w =
     RocksDBSavePoint.rollback (RocksDBSavePoint.mk trx op false) w /\
     exists rest,
       calls (snd (RocksDBSavePoint.rollback (RocksDBSavePoint.mk trx op true) w)) =
       calls w ++ Methods_RollbackToSavePoint :: rest).
Proof.
  unfold RocksDBSavePoint.rollback, bind, TRI_ASSERT, invoke.
  cbn [RocksDBSavePoint._handled negb RocksDBSavePoint._operationType].
  split; intros ->; cbn [andb]; [reflexivity|].
  split; [reflexivity|].
  destruct (raises (calls w) Methods_RollbackToSavePoint).
  - exists []. reflexivity.
  - cbn [calls record_call].
    destruct (raises _ (State_rollbackOperation op));
      exists [State_rollbackOperation op]; cbn; now rewrite <- app_assoc.
Qed.

(** X5.  The guard of a single-operation transaction is inert: from
    construction through any [finish] calls to destruction it issues
    no call and logs nothing. *)
Theorem SavePoint_lifetime_single_operation {E : Environment}
    (trx : TransactionMethods) (op : TRI_voc_document_operation_e)
    (bs : list bool) (w : World) :
  isSingleOperationTransaction trx = true ->
  lifetime trx op bs w = (Returned (RocksDBSavePoint.mk trx op true), w).
Proof.
  intros Hs. unfold lifetime, bind. rewrite ctor_eq, Hs.
  rewrite finishes_handled by reflexivity.
  now rewrite dtor_handled.
Qed.

(** X6.  A guard of a multi-operation transaction that was finished
    never rolls back: over its life it issues [SetSavePoint], then
    [PopSavePoint] unless the first [finish] reported an intermediate
    commit, and nothing more.  Later [finish] calls do not count. *)
Theorem SavePoint_lifetime_finished {E : Environment}
    (trx : TransactionMethods) (op : TRI_voc_document_operation_e)
    (b : bool) (bs : list bool) (w : World) :
  isSingleOperationTransaction trx = false ->
  lifetime trx op (b :: bs) w =
    (Returned (RocksDBSavePoint.mk trx op true),
     extend w (Methods_SetSavePoint :: if b then [] else [Methods_PopSavePoint]) []).
Proof.
  intros Hs. unfold lifetime, bind. rewrite ctor_eq, Hs.
  rewrite finishes_created. rewrite dtor_handled by reflexivity.
  destruct b; unfold extend, record_call; cbn [calls errlog];
    rewrite <- ?app_assoc, ?app_nil_r; reflexivity.
Qed.

(* ================================================================== *)
(** ** The strategies: probes, assertions, reads against writes *)
(* ================================================================== *)

Section AssertionFacts.
Context {E : Environment}.

Lemma TRI_ASSERT_false_maintainer (w : World) :
  ARANGODB_ENABLE_MAINTAINER_MODE = true ->
  TRI_ASSERT false w = (Aborted, w).
Proof.
  intros H. unfold TRI_ASSERT. now rewrite H.
Qed.

Lemma TRI_ASSERT_release (cond : bool) (w : World) :
  ARANGODB_ENABLE_MAINTAINER_MODE = false ->
  TRI_ASSERT cond w = (Returned tt, w).
Proof.
  intros H. unfold TRI_ASSERT. now rewrite H.
Qed.

(** A computation that starts with a failing assertion. *)
Lemma assert_first_aborts {A : Type} (k : M A) :
  ARANGODB_ENABLE_MAINTAINER_MODE = true ->
  aborts_untouched (TRI_ASSERT false ;; k).
Proof.
  intros H w. unfold bind. now rewrite TRI_ASSERT_false_maintainer.
Qed.

End AssertionFacts.

(** X7.  The read-only [Exists] is a two-phase probe: a definite hit
    of [KeyMayExist] answers [true] and a definite miss [false], both
    without a lookup; only "may exist" is followed by one [Get],
    whose answer then decides, any status but not-found counting as
    present. *)
Theorem ReadOnly_Exists_two_phase {E : Environment}
    (m : RocksDBReadOnlyMethods.t) (cf : ColumnFamilyHandle) (key : RocksDBKey)
    (w : World) :
  let ro := _rocksReadOptions (RocksDBReadOnlyMethods._state m) in
  let probe := Db_KeyMayExist ro (Some cf) (key_string key) in
  let get := Db_Get ro (Some cf) (key_string key) in
  let mayExist := fst (keyMayExist_of (calls w) probe) in
  let valueFound := snd (keyMayExist_of (calls w) probe) in
  let s := status_of (calls w ++ [probe]) get in
  RocksDBReadOnlyMethods.Exists m (Some cf) key w =
    (Returned (valueFound || (mayExist && negb (IsNotFound s))),
     extend w (probe :: if negb valueFound && mayExist then [get] else []) []).
Proof.
  cbv zeta. unfold RocksDBReadOnlyMethods.Exists, bind.
  cbn [is_null negb]. rewrite TRI_ASSERT_true.
  unfold engine_probe, engine.
  destruct (keyMayExist_of (calls w) _) as [[|] [|]]; cbn [fst snd];
    unfold ret, extend, record_call; cbn [calls errlog negb andb orb];
    rewrite <- ?app_assoc, ?app_nil_r; reflexivity.
Qed.

(** X8.  In a maintainer build every operation that asserts its
    column family aborts on a null one before any call reaches a
    collaborator: the reads of the read-only strategy and all reads
    and writes of the transactional, untracked and batched ones. *)
Theorem null_column_family_aborts {E : Environment}
    (st : RocksDBTransactionState) (d : bool) (key : RocksDBKey)
    (val : Slice) (hint : StatusHint) :
  ARANGODB_ENABLE_MAINTAINER_MODE = true ->
  let ro := RocksDBReadOnlyMethods.mk st in
  let trx := RocksDBTrxMethods.mk st d in
  let unt := RocksDBTrxUntrackedMethods.mk trx in
  let bat := RocksDBBatchedMethods.mk st in
  aborts_untouched (RocksDBReadOnlyMethods.Exists ro None key) /\
  aborts_untouched (RocksDBReadOnlyMethods.Get ro None (key_string key)) /\
  aborts_untouched (RocksDBTrxMethods.Exists trx None key) /\
  aborts_untouched (RocksDBTrxMethods.Get trx None (key_string key)) /\
  aborts_untouched (RocksDBTrxMethods.Put trx None key val hint) /\
  aborts_untouched (RocksDBTrxMethods.Delete trx None key) /\
  aborts_untouched (RocksDBTrxMethods.SingleDelete trx None key) /\
  aborts_untouched (RocksDBTrxUntrackedMethods.Put unt None key val hint) /\
  aborts_untouched (RocksDBTrxUntrackedMethods.Delete unt None key) /\
  aborts_untouched (RocksDBTrxUntrackedMethods.SingleDelete unt None key) /\
  aborts_untouched (RocksDBBatchedMethods.Exists bat None key) /\
  aborts_untouched (RocksDBBatchedMethods.Get bat None (key_string key)) /\
  aborts_untouched (RocksDBBatchedMethods.Put bat None key val hint) /\
  aborts_untouched (RocksDBBatchedMethods.Delete bat None key) /\
  aborts_untouched (RocksDBBatchedMethods.SingleDelete bat None key).
Proof.
  intros Hm. cbv zeta.
  repeat match goal with |- _ /\ _ => split end;
    now apply assert_first_aborts.
Qed.

(** X9.  [Get] on the transactional and the read-only strategy also
    asserts that the shared read options carry a snapshot: without
    one a maintainer build aborts before the lookup.  [Exists] on the
    same object and [Get] on the batched strategy do not ask for a
    snapshot and go through. *)
Theorem Get_asserts_snapshot {E : Environment}
    (st : RocksDBTransactionState) (d : bool) (cf : ColumnFamilyHandle)
    (key : RocksDBKey) :
  ARANGODB_ENABLE_MAINTAINER_MODE = true ->
  snapshot (_rocksReadOptions st) = None ->
  aborts_untouched
    (RocksDBTrxMethods.Get (RocksDBTrxMethods.mk st d) (Some cf) (key_string key)) /\
  aborts_untouched
    (RocksDBReadOnlyMethods.Get (RocksDBReadOnlyMethods.mk st) (Some cf) (key_string key)) /\
  (forall w, exists b,
      RocksDBTrxMethods.Exists (RocksDBTrxMethods.mk st d) (Some cf) key w =
        (Returned b,
         record_call (Trx_Get (_rocksReadOptions st) (Some cf) (key_string key)) w)) /\
  (forall w, exists r,
      RocksDBBatchedMethods.Get (RocksDBBatchedMethods.mk st) (Some cf) (key_string key) w =
        (Returned r,
         record_call
           (Wb_GetFromBatchAndDB ReadOptions_default (Some cf) (key_string key)) w)).
Proof.
  intros Hm Hs. repeat split.
  - intros w. unfold RocksDBTrxMethods.Get, bind.
    cbn [is_null negb RocksDBTrxMethods._state]. rewrite TRI_ASSERT_true, Hs.
    cbn [is_nullptr negb]. now rewrite TRI_ASSERT_false_maintainer.
  - intros w. unfold RocksDBReadOnlyMethods.Get, bind.
    cbn [is_null negb RocksDBReadOnlyMethods._state]. rewrite TRI_ASSERT_true, Hs.
    cbn [is_nullptr negb]. now rewrite TRI_ASSERT_false_maintainer.
  - intros w. unfold RocksDBTrxMethods.Exists, bind.
    cbn [is_null negb]. rewrite TRI_ASSERT_true. eexists; reflexivity.
  - intros w. unfold RocksDBBatchedMethods.Get, bind.
    cbn [is_null negb]. rewrite TRI_ASSERT_true. eexists; reflexivity.
Qed.

(** X10.  On the transactional strategy [Exists] and [Get] put the
    same question to the transaction object, so from the same world
    they agree: when [Get] delivers a value, [Exists] answers [true]
    and [Get]'s result is the success result; when [Exists] answers
    [false], [Get] delivers no value and the translation of
    not-found. *)
Theorem Trx_Get_Exists_agree {E : Environment}
    (m : RocksDBTrxMethods.t) (cf : ColumnFamilyHandle) (key : RocksDBKey)
    (w : World) :
  (forall r v w',
      RocksDBTrxMethods.Get m (Some cf) (key_string key) w = (Returned (r, Some v), w') ->
      RocksDBTrxMethods.Exists m (Some cf) key w = (Returned true, w') /\
      r = Result_ok) /\
  (forall w' r v w'',
      RocksDBTrxMethods.Exists m (Some cf) key w = (Returned false, w') ->
      RocksDBTrxMethods.Get m (Some cf) (key_string key) w = (Returned (r, v), w'') ->
      w'' = w' /\ v = None /\
      r = convertStatus kNotFound hint_document "" "Get - in RocksDBTrxMethods").
Proof.
  unfold RocksDBTrxMethods.Get, RocksDBTrxMethods.Exists, bind.
  cbn [is_null negb]. rewrite TRI_ASSERT_true.
  unfold TRI_ASSERT, engine_read, engine, ret.
  set (c := Trx_Get _ _ _).
  split.
  - intros r v w'.
    destruct (ARANGODB_ENABLE_MAINTAINER_MODE && _); [discriminate|].
    destruct (status_of (calls w) c); cbn; intros [= <- _ <-];
      try discriminate; split; reflexivity.
  - intros w' r v w''.
    destruct (ARANGODB_ENABLE_MAINTAINER_MODE && _); [discriminate|].
    destruct (status_of (calls w) c); cbn; intros [= <-]; try discriminate.
    intros [= <- <- <-]. repeat split.
Qed.

(** X11.  The same agreement holds on the batched strategy, where
    both look the key up in the batch merged with the database under
    default read options. *)
Theorem Batched_Get_Exists_agree {E : Environment}
    (m : RocksDBBatchedMethods.t) (cf : ColumnFamilyHandle) (key : RocksDBKey)
    (w : World) :
  (forall r v w',
      RocksDBBatchedMethods.Get m (Some cf) (key_string key) w = (Returned (r, Some v), w') ->
      RocksDBBatchedMethods.Exists m (Some cf) key w = (Returned true, w') /\
      r = Result_ok) /\
  (forall w',
      RocksDBBatchedMethods.Exists m (Some cf) key w = (Returned false, w') ->
      RocksDBBatchedMethods.Get m (Some cf) (key_string key) w =
        (Returned
           (convertStatus kNotFound hint_document "" "Get - in RocksDBBatchedMethods",
            None), w')).
Proof.
  unfold RocksDBBatchedMethods.Get, RocksDBBatchedMethods.Exists, bind.
  cbn [is_null negb]. rewrite TRI_ASSERT_true.
  unfold engine_read, engine, ret, to_Result.
  set (c := Wb_GetFromBatchAndDB _ _ _).
  split.
  - intros r v w'.
    destruct (status_of (calls w) c); cbn; intros [= <- _ <-];
      try discriminate; split; reflexivity.
  - intros w'.
    destruct (status_of (calls w) c); cbn; intros [= <-]; try discriminate.
    reflexivity.
Qed.

(** X12.  On the transactional and the untracked strategy a write
    hands exactly one call to the transaction object, the tracked or
    the untracked one, and reports its status: provided
    [convertStatus] keeps a failure a failure, the result is the
    success result exactly when the engine answered ok.  [Put]
    translates a failure under the caller's hint. *)
Theorem Trx_writes_report_status {E : Environment}
    (m : RocksDBTrxMethods.t) (cf : ColumnFamilyHandle) (key : RocksDBKey)
    (val : Slice) (hint : StatusHint) (w : World) :
  convertStatus_keeps_failure ->
  let u := RocksDBTrxUntrackedMethods.mk m in
  let k := key_string key in
  let reports (run : Outcome Result * World) (c : Event) (h : StatusHint) :=
    exists r,
      run = (Returned r, record_call c w) /\
      Result_is_ok r = ok (status_of (calls w) c) /\
      (ok (status_of (calls w) c) = false ->
       r = convertStatus (status_of (calls w) c) h "" "") in
  reports (RocksDBTrxMethods.Put m (Some cf) key val hint w)
          (Trx_Put (Some cf) k val) hint /\
  reports (RocksDBTrxMethods.Delete m (Some cf) key w)
          (Trx_Delete (Some cf) k) hint_none /\
  reports (RocksDBTrxMethods.SingleDelete m (Some cf) key w)
          (Trx_SingleDelete (Some cf) k) hint_none /\
  reports (RocksDBTrxUntrackedMethods.Put u (Some cf) key val hint w)
          (Trx_PutUntracked (Some cf) k val) hint /\
  reports (RocksDBTrxUntrackedMethods.Delete u (Some cf) key w)
          (Trx_DeleteUntracked (Some cf) k) hint_none /\
  reports (RocksDBTrxUntrackedMethods.SingleDelete u (Some cf) key w)
          (Trx_SingleDeleteUntracked (Some cf) k) hint_none.
Proof.
  intros Hconv. cbv zeta.
  assert (Hrep : forall c h,
             exists r,
               (Returned (to_Result (status_of (calls w) c) h "" ""), record_call c w) =
                 (Returned r, record_call c w) /\
               Result_is_ok r = ok (status_of (calls w) c) /\
               (ok (status_of (calls w) c) = false ->
                r = convertStatus (status_of (calls w) c) h "" "")).
  { intros c h. eexists. split; [reflexivity|]. unfold to_Result.
    destruct (ok (status_of (calls w) c)) eqn:Hok.
    - split; [reflexivity | discriminate].
    - split; [now apply Hconv | reflexivity]. }
  unfold RocksDBTrxMethods.Put, RocksDBTrxMethods.Delete,
    RocksDBTrxMethods.SingleDelete, RocksDBTrxUntrackedMethods.Put,
    RocksDBTrxUntrackedMethods.Delete, RocksDBTrxUntrackedMethods.SingleDelete, bind.
  cbn [is_null negb]. rewrite !TRI_ASSERT_true. unfold engine, ret.
  repeat split; apply Hrep.
Qed.

(** X13.  [PopSavePoint] on the transactional strategy forwards one
    call to the transaction object in every build.  Outside a
    maintainer build it returns whatever the status; a maintainer
    build aborts after the call when the status is not ok. *)
Theorem Trx_PopSavePoint_tolerates_failure {E : Environment}
    (m : RocksDBTrxMethods.t) (w : World) :
  let s := status_of (calls w) Trx_PopSavePoint in
  let w' := record_call Trx_PopSavePoint w in
  (ARANGODB_ENABLE_MAINTAINER_MODE = false ->
     RocksDBTrxMethods.PopSavePoint m w = (Returned tt, w')) /\
  (ARANGODB_ENABLE_MAINTAINER_MODE = true -> ok s = true ->
     RocksDBTrxMethods.PopSavePoint m w = (Returned tt, w')) /\
  (ARANGODB_ENABLE_MAINTAINER_MODE = true -> ok s = false ->
     RocksDBTrxMethods.PopSavePoint m w = (Aborted, w')).
Proof.
  cbv zeta. unfold RocksDBTrxMethods.PopSavePoint, bind, engine, issue, TRI_ASSERT.
  repeat split.
  - intros ->. reflexivity.
  - intros -> ->. reflexivity.
  - intros -> ->. reflexivity.
Qed.

Section IssuesOnly.
Context {E : Environment}.
Variable p : Event -> bool.

Lemma issues_only_ret {A : Type} (a : A) : issues_only p (ret a).
Proof.
  intros w. exists []. cbn. now rewrite extend_nil.
Qed.

Lemma issues_only_throw {A : Type} (e : Exception) :
  issues_only p (throw e : M A).
Proof.
  intros w. exists []. cbn. now rewrite extend_nil.
Qed.

Lemma issues_only_TRI_ASSERT (cond : bool) : issues_only p (TRI_ASSERT cond).
Proof.
  intros w. exists []. unfold TRI_ASSERT.
  destruct (ARANGODB_ENABLE_MAINTAINER_MODE && negb cond); cbn;
    now rewrite extend_nil.
Qed.

Lemma issues_only_engine (c : Event) : p c = true -> issues_only p (engine c).
Proof.
  intros H w. exists [c]. cbn. rewrite record_call_extend, H. now split.
Qed.

Lemma issues_only_engine_read (c : Event) :
  p c = true -> issues_only p (engine_read c).
Proof.
  intros H w. exists [c]. cbn. rewrite record_call_extend, H. now split.
Qed.

Lemma issues_only_engine_probe (c : Event) :
  p c = true -> issues_only p (engine_probe c).
Proof.
  intros H w. exists [c]. cbn. rewrite record_call_extend, H. now split.
Qed.

(** Sequencing keeps the property. *)
Lemma issues_only_bind {A B : Type} (m : M A) (k : A -> M B) :
  issues_only p m -> (forall a, issues_only p (k a)) ->
  issues_only p (bind m k).
Proof.
  intros Hm Hk w. unfold bind.
  destruct (Hm w) as (i1 & H1 & P1).
  destruct (m w) as [[a| e |] w1]; cbn [snd] in H1; subst w1.
  - destruct (Hk a (extend w i1 [])) as (i2 & H2 & P2).
    exists (i1 ++ i2). rewrite H2, extend_extend. split; [reflexivity|].
    now rewrite forallb_app, P1, P2.
  - exists i1. now split.
  - exists i1. now split.
Qed.

End IssuesOnly.

Ltac issues_only_step :=
  first
    [ apply issues_only_ret
    | apply issues_only_throw
    | apply issues_only_TRI_ASSERT
    | apply issues_only_engine; reflexivity
    | apply issues_only_engine_read; reflexivity
    | apply issues_only_engine_probe; reflexivity
    | apply issues_only_bind; [|intros ?]
    | match goal with
      | |- issues_only _ (let (_, _) := ?x in _) => destruct x
      | |- issues_only _ (if ?b then _ else _) => destruct b
      end ].

(** X14.  The read-only strategy never writes: whatever operation is
    called on it, with whatever arguments and however it ends, the
    only calls it issues are [KeyMayExist] and [Get] on the engine
    handle, and it logs nothing. *)
Theorem ReadOnly_only_reads_engine {E : Environment}
    (m : RocksDBReadOnlyMethods.t) (cf : cf_ptr) (key : RocksDBKey)
    (val : Slice) (hint : StatusHint) :
  issues_only is_db_read (RocksDBReadOnlyMethods.Exists m cf key) /\
  issues_only is_db_read (RocksDBReadOnlyMethods.Get m cf (key_string key)) /\
  issues_only is_db_read (RocksDBReadOnlyMethods.Put m cf key val hint) /\
  issues_only is_db_read (RocksDBReadOnlyMethods.Delete m cf key) /\
  issues_only is_db_read (RocksDBReadOnlyMethods.SingleDelete m cf key).
Proof.
  unfold RocksDBReadOnlyMethods.Exists, RocksDBReadOnlyMethods.Get,
    RocksDBReadOnlyMethods.Put, RocksDBReadOnlyMethods.Delete,
    RocksDBReadOnlyMethods.SingleDelete, THROW_ARANGO_EXCEPTION.
  repeat split; repeat issues_only_step.
Qed.

(** X15.  Through the shared interface, [Exists] and [Get] of every
    strategy issue read calls only, on a null column family and in
    every build too: no read ever puts, deletes, sets a savepoint or
    toggles indexing. *)
Theorem reads_issue_only_reads {E : Environment}
    (st : RocksDBTransactionState) (d : bool) (cf : cf_ptr) (key : RocksDBKey) :
  let ro := RocksDBReadOnlyMethods.mk st in
  let trx := RocksDBTrxMethods.mk st d in
  let unt := RocksDBTrxUntrackedMethods.mk trx in
  let bat := RocksDBBatchedMethods.mk st in
  issues_only is_read (Exists (RocksDBMethods := RocksDBReadOnlyMethods.methods) ro cf key) /\
  issues_only is_read (Get_key (H := RocksDBReadOnlyMethods.methods) ro cf key) /\
  issues_only is_read (Exists (RocksDBMethods := RocksDBTrxMethods.methods) trx cf key) /\
  issues_only is_read (Get_key (H := RocksDBTrxMethods.methods) trx cf key) /\
  issues_only is_read (Exists (RocksDBMethods := RocksDBTrxUntrackedMethods.methods) unt cf key) /\
  issues_only is_read (Get_key (H := RocksDBTrxUntrackedMethods.methods) unt cf key) /\
  issues_only is_read (Exists (RocksDBMethods := RocksDBBatchedMethods.methods) bat cf key) /\
  issues_only is_read (Get_key (H := RocksDBBatchedMethods.methods) bat cf key).
Proof.
  cbv zeta. unfold Get_key.
  cbn [Exists Get RocksDBReadOnlyMethods.methods RocksDBTrxMethods.methods
       RocksDBTrxUntrackedMethods.methods RocksDBBatchedMethods.methods].
  unfold RocksDBReadOnlyMethods.Exists, RocksDBReadOnlyMethods.Get,
    RocksDBTrxMethods.Exists, RocksDBTrxMethods.Get,
    RocksDBBatchedMethods.Exists, RocksDBBatchedMethods.Get.
  repeat split; repeat issues_only_step.
Qed.

(** X16.  Whatever sequence of [DisableIndexing] and [EnableIndexing]
    calls is made, the calls that reach the transaction object
    alternate, beginning with the one that changes the current state:
    indexing is never disabled twice nor enabled twice in a row on
    the transaction object, and the flag follows the calls. *)
Theorem Trx_indexing_alternates {E : Environment}
    (ops : list IndexingCall) (m : RocksDBTrxMethods.t) (w : World) :
  exists m' issued,
    run_indexing ops m w = (Returned m', extend w issued []) /\
    alternates (RocksDBTrxMethods._indexingDisabled m) issued = true /\
    RocksDBTrxMethods._state m' = RocksDBTrxMethods._state m /\
    RocksDBTrxMethods._indexingDisabled m' =
      xorb (RocksDBTrxMethods._indexingDisabled m) (Nat.odd (List.length issued)) /\
    List.length issued <= List.length ops.
Proof.
  revert m w. induction ops as [|op ops IH]; intros [st d] w.
  - exists (RocksDBTrxMethods.mk st d), []. rewrite extend_nil.
    cbn. rewrite xorb_false_r. repeat split; lia.
  - destruct op, d; cbn [run_indexing]; unfold bind;
      unfold RocksDBTrxMethods.DisableIndexing, RocksDBTrxMethods.EnableIndexing,
        RocksDBTrxMethods.set_indexingDisabled, bind;
      cbn [RocksDBTrxMethods._indexingDisabled negb issue ret snd
           RocksDBTrxMethods._state].
    + (* DisableIndexing, already disabled *)
      destruct (IH (RocksDBTrxMethods.mk st true) w) as (m' & i & Hr & Ha & Hs & Hd & Hl).
      exists m', i. rewrite Hr. cbn in *. repeat split; auto.
    + (* DisableIndexing, enabled *)
      destruct (IH (RocksDBTrxMethods.mk st true) (record_call Trx_DisableIndexing w))
        as (m' & i & Hr & Ha & Hs & Hd & Hl).
      exists m', (Trx_DisableIndexing :: i).
      rewrite Hr, record_call_extend, extend_extend.
      cbn [RocksDBTrxMethods._indexingDisabled RocksDBTrxMethods._state] in *.
      split; [reflexivity|]. split; [cbn; exact Ha|]. split; [exact Hs|].
      split; [|cbn; lia].
      rewrite Hd. cbn [List.length]. rewrite Nat.odd_succ, <- Nat.negb_odd.
      now destruct (Nat.odd (List.length i)).
    + (* EnableIndexing, disabled *)
      destruct (IH (RocksDBTrxMethods.mk st false) (record_call Trx_EnableIndexing w))
        as (m' & i & Hr & Ha & Hs & Hd & Hl).
      exists m', (Trx_EnableIndexing :: i).
      rewrite Hr, record_call_extend, extend_extend.
      cbn [RocksDBTrxMethods._indexingDisabled RocksDBTrxMethods._state] in *.
      split; [reflexivity|]. split; [cbn; exact Ha|]. split; [exact Hs|].
      split; [|cbn; lia].
      rewrite Hd. cbn [List.length]. rewrite Nat.odd_succ, <- Nat.negb_odd.
      now destruct (Nat.odd (List.length i)).
    + (* EnableIndexing, already enabled *)
      destruct (IH (RocksDBTrxMethods.mk st false) w) as (m' & i & Hr & Ha & Hs & Hd & Hl).
      exists m', i. rewrite Hr. cbn in *. repeat split; auto.
Qed.

(** X17.  When the hints allow intermediate commits but no
    transaction-wide snapshot is set, [iteratorReadOptions] aborts a
    maintainer build; another build returns read options whose
    snapshot is null, dropping the snapshot the shared read options
    may carry and keeping their other fields. *)
Theorem iteratorReadOptions_without_read_snapshot {E : Environment}
    (st : RocksDBTransactionState) (w : World) :
  hasHint st INTERMEDIATE_COMMITS = true ->
  _readSnapshot st = None ->
  (ARANGODB_ENABLE_MAINTAINER_MODE = true ->
     iteratorReadOptions st w = (Aborted, w)) /\
  (ARANGODB_ENABLE_MAINTAINER_MODE = false ->
     exists ro,
       iteratorReadOptions st w = (Returned ro, w) /\
       snapshot ro = None /\
       verify_checksums ro = verify_checksums (_rocksReadOptions st) /\
       fill_cache ro = fill_cache (_rocksReadOptions st) /\
       prefix_same_as_start ro = prefix_same_as_start (_rocksReadOptions st) /\
       total_order_seek ro = total_order_seek (_rocksReadOptions st)).
Proof.
  intros Hh Hs. unfold iteratorReadOptions, bind, TRI_ASSERT. rewrite Hh, Hs.
  split; intros ->; cbn; [reflexivity|].
  eexists. split; [reflexivity|]. repeat split.
Qed.

(* ================================================================== *)
(** ** countInBounds *)
(* ================================================================== *)

Lemma incr_range (count : Z) : (0 <= incr count < 2 ^ 64)%Z.
Proof.
  unfold incr. apply Z.mod_pos_bound. lia.
Qed.

Section CountInBoundsFacts.
Context {E : Environment}.
Variable Compare : ColumnFamilyHandle -> Slice -> Slice -> Z.
Variable cf : ColumnFamilyHandle.
Variable end_key : Slice.

(** The loop adds the number of keys it passes to the counter. *)
Lemma count_while_eq (iter : Iterator) (count : Z) :
  (0 <= count < 2 ^ 64)%Z ->
  count_while Compare cf end_key iter count =
  ((count + Z.of_nat (List.length (keys_below Compare cf end_key iter))) mod 2 ^ 64)%Z.
Proof.
  revert count. induction iter as [|k iter IH]; intros count Hc; cbn [count_while keys_below].
  - cbn [List.length Z.of_nat]. rewrite Z.add_0_r. symmetry. now apply Z.mod_small.
  - destruct (Compare cf k end_key <? 0)%Z.
    + rewrite IH by apply incr_range. unfold incr.
      rewrite Zplus_mod_idemp_l. f_equal. cbn [List.length]. lia.
    + cbn [List.length Z.of_nat]. rewrite Z.add_0_r. symmetry. now apply Z.mod_small.
Qed.

Lemma keys_below_length (iter : Iterator) :
  List.length (keys_below Compare cf end_key iter) <= List.length iter.
Proof.
  induction iter as [|k iter IH]; cbn [keys_below List.length]; [lia|].
  destruct (Compare cf k end_key <? 0)%Z; cbn [List.length]; lia.
Qed.

(** In comparator order the keys below [end_key] come first, so the
    prefix the loop passes holds all of them. *)
Lemma keys_below_all (iter : Iterator) :
  (forall a b c, (Compare cf a b <= 0 -> Compare cf b c < 0 -> Compare cf a c < 0)%Z) ->
  in_comparator_order Compare cf iter ->
  keys_below Compare cf end_key iter =
  filter (fun k => (Compare cf k end_key <? 0)%Z) iter.
Proof.
  intros Htrans. induction iter as [|k iter IH]; intros Hord; [reflexivity|].
  destruct Hord as [Hk Hord]. cbn [keys_below filter].
  destruct (Compare cf k end_key <? 0)%Z eqn:Hlt.
  - f_equal. now apply IH.
  - clear IH Hord. induction iter as [|k' iter IH']; [reflexivity|].
    cbn [filter]. inversion Hk as [|? ? Hkk' Hrest]; subst.
    destruct (Compare cf k' end_key <? 0)%Z eqn:Hlt'.
    + apply Z.ltb_lt in Hlt'. apply Z.ltb_ge in Hlt.
      specialize (Htrans k k' end_key Hkk' Hlt'). lia.
    + now apply IH'.
Qed.

End CountInBoundsFacts.

Section CountInBoundsRuns.
Context {E : Environment}.
Variable Compare : ColumnFamilyHandle -> Slice -> Slice -> Z.
Variable NewIterator_Seek :
  list Event -> ReadOptions -> ColumnFamilyHandle -> Slice -> Iterator.

(** The full count, in one equation. *)
Lemma countInBounds_run (st : RocksDBTransactionState) (bounds : RocksDBKeyBounds)
    (ro : ReadOptions) (w : World) :
  iteratorReadOptions st w = (Returned ro, w) ->
  countInBounds Compare NewIterator_Seek st bounds false w =
    (Returned
       (Z.of_nat (List.length
          (keys_below Compare (columnFamily bounds) (end_ bounds)
             (NewIterator_Seek (calls w) ro (columnFamily bounds) (start bounds))))
        mod 2 ^ 64)%Z, w).
Proof.
  intros Hro. unfold countInBounds, bind. rewrite Hro.
  destruct (NewIterator_Seek (calls w) ro (columnFamily bounds) (start bounds))
    as [|k iter']; [reflexivity|].
  cbn [keys_below].
  destruct (Compare (columnFamily bounds) k (end_ bounds) <? 0)%Z eqn:Hlt.
  - unfold ret. rewrite count_while_eq by apply incr_range.
    do 2 f_equal. unfold incr. rewrite Zplus_mod_idemp_l.
    f_equal. cbn [List.length]. lia.
  - unfold ret. cbn [count_while]. rewrite Hlt. reflexivity.
Qed.

(** No iterator is long enough for the counter to wrap. *)
Lemma countInBounds_run_small (st : RocksDBTransactionState)
    (bounds : RocksDBKeyBounds) (ro : ReadOptions) (w : World) :
  iteratorReadOptions st w = (Returned ro, w) ->
  (Z.of_nat (List.length
     (NewIterator_Seek (calls w) ro (columnFamily bounds) (start bounds))) < 2 ^ 64)%Z ->
  countInBounds Compare NewIterator_Seek st bounds false w =
    (Returned
       (Z.of_nat (List.length
          (keys_below Compare (columnFamily bounds) (end_ bounds)
             (NewIterator_Seek (calls w) ro (columnFamily bounds) (start bounds))))), w).
Proof.
  intros Hro Hlen. rewrite (countInBounds_run st bounds ro w Hro).
  do 2 f_equal. apply Z.mod_small.
  pose proof (keys_below_length Compare (columnFamily bounds) (end_ bounds)
                (NewIterator_Seek (calls w) ro (columnFamily bounds) (start bounds))).
  lia.
Qed.

End CountInBoundsRuns.


(** X19.  When the iterator yields its keys in the order of a
    transitive comparator, that number is the number of all the keys
    the iterator still holds that are below the end of the bounds. *)
Theorem countInBounds_counts_all_below {E : Environment}
    (Compare : ColumnFamilyHandle -> Slice -> Slice -> Z)
    (NewIterator_Seek : list Event -> ReadOptions -> ColumnFamilyHandle -> Slice -> Iterator)
    (st : RocksDBTransactionState) (bounds : RocksDBKeyBounds)
    (ro : ReadOptions) (w : World) :
  let cf := columnFamily bounds in
  let iter := NewIterator_Seek (calls w) ro cf (start bounds) in
  iteratorReadOptions st w = (Returned ro, w) ->
  (forall a b c, (Compare cf a b <= 0 -> Compare cf b c < 0 -> Compare cf a c < 0)%Z) ->
  in_comparator_order Compare cf iter ->
  (Z.of_nat (List.length iter) < 2 ^ 64)%Z ->
  countInBounds Compare NewIterator_Seek st bounds false w =
    (Returned
       (Z.of_nat (List.length
          (filter (fun k => (Compare cf k (end_ bounds) <? 0)%Z) iter))), w).
Proof.
  cbv zeta. intros Hro Htrans Hord Hlen.
  rewrite (countInBounds_run_small _ _ st bounds ro w Hro Hlen).
  now rewrite (keys_below_all _ _ _ _ Htrans Hord).
Qed.

(** X20.  With the early exit [countInBounds] only tells whether the
    first key at or after the start of the bounds is below their
    end: it returns 1 if so and 0 if not or if there is no key, and
    never more, however many keys lie in the bounds. *)
Theorem countInBounds_isElementInRange {E : Environment}
    (Compare : ColumnFamilyHandle -> Slice -> Slice -> Z)
    (NewIterator_Seek : list Event -> ReadOptions -> ColumnFamilyHandle -> Slice -> Iterator)
    (st : RocksDBTransactionState) (bounds : RocksDBKeyBounds)
    (ro : ReadOptions) (w : World) :
  iteratorReadOptions st w = (Returned ro, w) ->
  let iter := NewIterator_Seek (calls w) ro (columnFamily bounds) (start bounds) in
  countInBounds Compare NewIterator_Seek st bounds true w =
    (Returned
       (match iter with
        | k :: _ => if (Compare (columnFamily bounds) k (end_ bounds) <? 0)%Z
                    then 1 else 0
        | [] => 0
        end)%Z, w) /\
  (forall n w',
      countInBounds Compare NewIterator_Seek st bounds true w = (Returned n, w') ->
      (n = 1 <-> keys_below Compare (columnFamily bounds) (end_ bounds) iter <> [])%Z).
Proof.
  intros Hro. cbv zeta.
  assert (Hrun : countInBounds Compare NewIterator_Seek st bounds true w =
    (Returned
       (match NewIterator_Seek (calls w) ro (columnFamily bounds) (start bounds) with
        | k :: _ => if (Compare (columnFamily bounds) k (end_ bounds) <? 0)%Z
                    then 1 else 0
        | [] => 0
        end)%Z, w)).
  { unfold countInBounds, bind. rewrite Hro.
    destruct (NewIterator_Seek (calls w) ro (columnFamily bounds) (start bounds))
      as [|k iter']; [reflexivity|].
    destruct (Compare (columnFamily bounds) k (end_ bounds) <? 0)%Z eqn:Hlt.
    - reflexivity.
    - unfold ret. cbn [count_while]. now rewrite Hlt. }
  split; [exact Hrun|].
  intros n w'. rewrite Hrun. intros [= <- _].
  destruct (NewIterator_Seek (calls w) ro (columnFamily bounds) (start bounds))
    as [|k iter']; cbn [keys_below].
  - split; [discriminate | congruence].
  - destruct (Compare (columnFamily bounds) k (end_ bounds) <? 0)%Z.
    + split; [discriminate | reflexivity].
    + split; [discriminate | congruence].
Qed.

(* ================================================================== *)
(** ** The further properties at concrete inputs *)
(* ================================================================== *)

Lemma compare_le_lt_trans (a b c : string) :
  String.compare a b <> Gt -> String.compare b c = Lt -> String.compare a c = Lt.
Proof.
  revert b c. induction a as [|x a IH]; intros [|y b] [|z c]; cbn; try congruence.
  unfold Ascii.compare.
  destruct (N.compare_spec (Ascii.N_of_ascii x) (Ascii.N_of_ascii y)) as [Hxy|Hxy|Hxy];
    destruct (N.compare_spec (Ascii.N_of_ascii y) (Ascii.N_of_ascii z)) as [Hyz|Hyz|Hyz];
    destruct (N.compare_spec (Ascii.N_of_ascii x) (Ascii.N_of_ascii z)) as [Hxz|Hxz|Hxz];
    try congruence; try lia; apply IH.
Qed.

Lemma bytewise_Compare_trans (cf : ColumnFamilyHandle) (a b c : Slice) :
  (bytewise_Compare cf a b <= 0 -> bytewise_Compare cf b c < 0 ->
   bytewise_Compare cf a c < 0)%Z.
Proof.
  unfold bytewise_Compare. intros Hab Hbc.
  rewrite (compare_le_lt_trans a b c); [lia | |].
  - destruct (String.compare a b); [congruence | congruence | lia].
  - destruct (String.compare b c); [lia | reflexivity | lia].
Qed.

Lemma SavePoint_dtor_logs_std_exceptions_witness :
  errlog (snd (RocksDBSavePoint.dtor (E := raising_env)
                 (RocksDBSavePoint.mk multi_operation_trx
                    TRI_VOC_DOCUMENT_OPERATION_UPDATE false) empty_world)) =
    ["caught exception during rollback to savepoint: out of memory"] /\
  errlog (snd (RocksDBSavePoint.dtor (E := foreign_raising_env)
                 (RocksDBSavePoint.mk multi_operation_trx
                    TRI_VOC_DOCUMENT_OPERATION_UPDATE false) empty_world)) = [] /\
  errlog (snd (RocksDBSavePoint.dtor (E := uniform_env true kOk)
                 (RocksDBSavePoint.mk multi_operation_trx
                    TRI_VOC_DOCUMENT_OPERATION_UPDATE false) empty_world)) = [].
Proof.
  split; [|split].
  - destruct (SavePoint_dtor_logs_std_exceptions (E := raising_env)
                multi_operation_trx TRI_VOC_DOCUMENT_OPERATION_UPDATE empty_world)
      as [H _].
    apply (H (StdException "out of memory") "out of memory"); reflexivity.
  - destruct (SavePoint_dtor_logs_std_exceptions (E := foreign_raising_env)
                multi_operation_trx TRI_VOC_DOCUMENT_OPERATION_UPDATE empty_world)
      as [_ [H _]].
    apply (H ForeignException); reflexivity.
  - destruct (SavePoint_dtor_logs_std_exceptions (E := uniform_env true kOk)
                multi_operation_trx TRI_VOC_DOCUMENT_OPERATION_UPDATE empty_world)
      as [_ [_ H]].
    apply H; reflexivity.
Defined.

Lemma SavePoint_dtor_order_witness :
  exists g' w',
    RocksDBSavePoint.dtor (E := uniform_env true kOk)
      (RocksDBSavePoint.mk multi_operation_trx TRI_VOC_DOCUMENT_OPERATION_REPLACE false)
      empty_world = (Returned g', w') /\
    calls w' = [Methods_RollbackToSavePoint;
                State_rollbackOperation TRI_VOC_DOCUMENT_OPERATION_REPLACE] /\
    RocksDBSavePoint._handled g' = true.
Proof.
  destruct (SavePoint_dtor_order (E := uniform_env true kOk)
              multi_operation_trx TRI_VOC_DOCUMENT_OPERATION_REPLACE empty_world)
    as (g' & w' & Hrun & Hnone & _ & Hiff).
  exists g', w'. split; [exact Hrun|]. split.
  - apply Hnone. reflexivity.
  - apply Hiff. reflexivity.
Defined.

Lemma SavePoint_rollback_on_handled_witness :
  RocksDBSavePoint.rollback (E := uniform_env true kOk)
    (RocksDBSavePoint.mk multi_operation_trx TRI_VOC_DOCUMENT_OPERATION_INSERT true)
    empty_world = (Aborted, empty_world) /\
  RocksDBSavePoint.rollback (E := uniform_env false kOk)
    (RocksDBSavePoint.mk multi_operation_trx TRI_VOC_DOCUMENT_OPERATION_INSERT true)
    empty_world =
  RocksDBSavePoint.rollback (E := uniform_env false kOk)
    (RocksDBSavePoint.mk multi_operation_trx TRI_VOC_DOCUMENT_OPERATION_INSERT false)
    empty_world.
Proof.
  split.
  - apply (SavePoint_rollback_on_handled (E := uniform_env true kOk)). reflexivity.
  - apply (SavePoint_rollback_on_handled (E := uniform_env false kOk)). reflexivity.
Defined.

Lemma SavePoint_lifetime_single_operation_witness :
  lifetime (E := raising_env) single_operation_trx
    TRI_VOC_DOCUMENT_OPERATION_REMOVE [false; true] empty_world =
  (Returned (RocksDBSavePoint.mk single_operation_trx
               TRI_VOC_DOCUMENT_OPERATION_REMOVE true), empty_world).
Proof.
  apply (SavePoint_lifetime_single_operation (E := raising_env)). reflexivity.
Defined.

Lemma SavePoint_lifetime_finished_witness :
  lifetime (E := raising_env) multi_operation_trx
    TRI_VOC_DOCUMENT_OPERATION_INSERT [false; true; false] empty_world =
  (Returned (RocksDBSavePoint.mk multi_operation_trx
               TRI_VOC_DOCUMENT_OPERATION_INSERT true),
   extend empty_world [Methods_SetSavePoint; Methods_PopSavePoint] []).
Proof.
  apply (SavePoint_lifetime_finished (E := raising_env)). reflexivity.
Defined.

Lemma null_column_family_aborts_witness :
  RocksDBTrxMethods.Put (E := uniform_env true kOk)
    (RocksDBTrxMethods.mk (sample_state (fun _ => false) (Some 7)) false)
    None (mkKey "k1") "v1" hint_document empty_world = (Aborted, empty_world).
Proof.
  destruct (null_column_family_aborts (E := uniform_env true kOk)
              (sample_state (fun _ => false) (Some 7)) false (mkKey "k1") "v1"
              hint_document eq_refl)
    as (_ & _ & _ & _ & H & _).
  apply H.
Defined.

Lemma Get_asserts_snapshot_witness :
  RocksDBTrxMethods.Get (E := uniform_env true kOk)
    (RocksDBTrxMethods.mk (sample_state (fun _ => false) (Some 7)) false)
    (Some 3) "k1" empty_world = (Aborted, empty_world).
Proof.
  destruct (Get_asserts_snapshot (E := uniform_env true kOk)
              (sample_state (fun _ => false) (Some 7)) false 3 (mkKey "k1")
              eq_refl eq_refl)
    as (H & _).
  apply H.
Defined.

Lemma Trx_Get_Exists_agree_witness :
  let m := RocksDBTrxMethods.ctor (sample_state (fun _ => false) None) in
  RocksDBTrxMethods.Exists (E := uniform_env false kOk) m (Some 3) (mkKey "k1")
    empty_world =
    (Returned true,
     record_call (Trx_Get (_rocksReadOptions (RocksDBTrxMethods._state m)) (Some 3) "k1")
       empty_world) /\
  exists w'',
    RocksDBTrxMethods.Get (E := uniform_env false kNotFound) m (Some 3) "k1" empty_world =
      (Returned ({| errorNumber := TRI_ERROR_OTHER 1; errorMessage := "engine failure" |},
                 None), w'') /\
    w'' = record_call
            (Trx_Get (_rocksReadOptions (RocksDBTrxMethods._state m)) (Some 3) "k1")
            empty_world.
Proof.
  cbv zeta. split.
  - destruct (Trx_Get_Exists_agree (E := uniform_env false kOk)
                (RocksDBTrxMethods.ctor (sample_state (fun _ => false) None))
                3 (mkKey "k1") empty_world) as [H _].
    apply (H Result_ok "v"). reflexivity.
  - destruct (Trx_Get_Exists_agree (E := uniform_env false kNotFound)
                (RocksDBTrxMethods.ctor (sample_state (fun _ => false) None))
                3 (mkKey "k1") empty_world) as [_ H].
    exists (record_call
              (Trx_Get (_rocksReadOptions (sample_state (fun _ => false) None))
                 (Some 3) "k1") empty_world).
    split; [reflexivity|].
    exact (proj1 (H (record_call
                       (Trx_Get (_rocksReadOptions (sample_state (fun _ => false) None))
                          (Some 3) "k1") empty_world)
                    {| errorNumber := TRI_ERROR_OTHER 1;
                       errorMessage := "engine failure" |}
                    None
                    (record_call
                       (Trx_Get (_rocksReadOptions (sample_state (fun _ => false) None))
                          (Some 3) "k1") empty_world)
                    eq_refl eq_refl)).
Defined.

Lemma Batched_Get_Exists_agree_witness :
  let m := RocksDBBatchedMethods.mk (sample_state (fun _ => false) None) in
  RocksDBBatchedMethods.Exists (E := uniform_env true kOk) m (Some 3) (mkKey "k1")
    empty_world =
    (Returned true,
     record_call (Wb_GetFromBatchAndDB ReadOptions_default (Some 3) "k1") empty_world) /\
  RocksDBBatchedMethods.Get (E := not_found_env) m (Some 3) "k1" empty_world =
    (Returned ({| errorNumber := TRI_ERROR_OTHER 1; errorMessage := "engine failure" |},
               None),
     record_call (Wb_GetFromBatchAndDB ReadOptions_default (Some 3) "k1") empty_world).
Proof.
  cbv zeta. split.
  - destruct (Batched_Get_Exists_agree (E := uniform_env true kOk)
                (RocksDBBatchedMethods.mk (sample_state (fun _ => false) None))
                3 (mkKey "k1") empty_world) as [H _].
    apply (H Result_ok "v"). reflexivity.
  - destruct (Batched_Get_Exists_agree (E := not_found_env)
                (RocksDBBatchedMethods.mk (sample_state (fun _ => false) None))
                3 (mkKey "k1") empty_world) as [_ H].
    apply H. reflexivity.
Defined.

Lemma uniform_env_keeps_failure (maintainer : bool) (s : Status) :
  convertStatus_keeps_failure (E := uniform_env maintainer s).
Proof.
  intros s' hint prefix postfix _. reflexivity.
Qed.

Lemma Trx_writes_report_status_witness :
  exists r,
    RocksDBTrxMethods.Put (E := uniform_env true kBusy)
      (RocksDBTrxMethods.ctor (sample_state (fun _ => false) None))
      (Some 3) (mkKey "k1") "v1" hint_document empty_world =
      (Returned r, record_call (Trx_Put (Some 3) "k1" "v1") empty_world) /\
    Result_is_ok r = false /\
    r = {| errorNumber := TRI_ERROR_OTHER 1; errorMessage := "engine failure" |}.
Proof.
  destruct (Trx_writes_report_status (E := uniform_env true kBusy)
              (RocksDBTrxMethods.ctor (sample_state (fun _ => false) None))
              3 (mkKey "k1") "v1" hint_document empty_world
              (uniform_env_keeps_failure true kBusy))
    as ((r & Hrun & Hok & Hfail) & _).
  exists r. split; [exact Hrun|]. split; [exact Hok|].
  apply Hfail. reflexivity.
Defined.

Lemma Trx_PopSavePoint_tolerates_failure_witness :
  let m := RocksDBTrxMethods.ctor (sample_state (fun _ => false) None) in
  RocksDBTrxMethods.PopSavePoint (E := uniform_env false kNotFound) m empty_world =
    (Returned tt, record_call Trx_PopSavePoint empty_world) /\
  RocksDBTrxMethods.PopSavePoint (E := uniform_env true kOk) m empty_world =
    (Returned tt, record_call Trx_PopSavePoint empty_world) /\
  RocksDBTrxMethods.PopSavePoint (E := uniform_env true kNotFound) m empty_world =
    (Aborted, record_call Trx_PopSavePoint empty_world).
Proof.
  cbv zeta. split; [|split].
  - destruct (Trx_PopSavePoint_tolerates_failure (E := uniform_env false kNotFound)
                (RocksDBTrxMethods.ctor (sample_state (fun _ => false) None))
                empty_world) as (H & _ & _).
    exact (H eq_refl).
  - destruct (Trx_PopSavePoint_tolerates_failure (E := uniform_env true kOk)
                (RocksDBTrxMethods.ctor (sample_state (fun _ => false) None))
                empty_world) as (_ & H & _).
    exact (H eq_refl eq_refl).
  - destruct (Trx_PopSavePoint_tolerates_failure (E := uniform_env true kNotFound)
                (RocksDBTrxMethods.ctor (sample_state (fun _ => false) None))
                empty_world) as (_ & _ & H).
    exact (H eq_refl eq_refl).
Defined.

Lemma iteratorReadOptions_without_read_snapshot_witness :
  let st := {| _rocksReadOptions := set_snapshot (Some 5) ReadOptions_default;
               _readSnapshot := None;
               hasHint := intermediate_commits_only |} in
  iteratorReadOptions (E := uniform_env true kOk) st empty_world =
    (Aborted, empty_world) /\
  exists ro,
    iteratorReadOptions (E := uniform_env false kOk) st empty_world =
      (Returned ro, empty_world) /\
    snapshot ro = None.
Proof.
  cbv zeta. split.
  - apply (iteratorReadOptions_without_read_snapshot (E := uniform_env true kOk));
      reflexivity.
  - destruct (iteratorReadOptions_without_read_snapshot (E := uniform_env false kOk)
                {| _rocksReadOptions := set_snapshot (Some 5) ReadOptions_default;
                   _readSnapshot := None;
                   hasHint := intermediate_commits_only |}
                empty_world eq_refl eq_refl) as [_ H].
    destruct (H eq_refl) as (ro & Hrun & Hsnap & _).
    exists ro. split; [exact Hrun | exact Hsnap].
Defined.


Lemma countInBounds_counts_all_below_witness :
  countInBounds (E := uniform_env true kOk) bytewise_Compare three_keys
    (sample_state (fun _ => false) None) (mkBounds 1 "a" "bb") false empty_world =
  (Returned 2%Z, empty_world).
Proof.
  apply (countInBounds_counts_all_below (E := uniform_env true kOk)
           bytewise_Compare three_keys (sample_state (fun _ => false) None)
           (mkBounds 1 "a" "bb")
           (_rocksReadOptions (sample_state (fun _ => false) None)) empty_world).
  - reflexivity.
  - intros a b c. apply bytewise_Compare_trans.
  - cbn. repeat constructor; cbv; discriminate.
  - reflexivity.
Defined.

Lemma countInBounds_isElementInRange_witness :
  countInBounds (E := uniform_env true kOk) bytewise_Compare three_keys
    (sample_state (fun _ => false) None) (mkBounds 1 "a" "c") true empty_world =
  (Returned 1%Z, empty_world).
Proof.
  destruct (countInBounds_isElementInRange (E := uniform_env true kOk)
              bytewise_Compare three_keys (sample_state (fun _ => false) None)
              (mkBounds 1 "a" "c")
              (_rocksReadOptions (sample_state (fun _ => false) None))
              empty_world eq_refl) as [H _].
  exact H.
Defined.
